(** * grapesjs-react-renderer: attribute-to-props mapping, component
      resolution and provider composition

    A shallow embedding of the plugin module [index] (component registry,
    render hook, provider wrapper), of the [helpers] module (JSON-safe
    parse, wrapper mapper, defaults merge) and of [src/factories.ts] (the
    JSON and wrapper component factories), followed by the properties of the
    specification that concern them. *)

From Stdlib Require Import ZArith String List.
From stdpp Require Import base tactics option list strings gmap.

Set Warnings "-register-all".

Local Open Scope string_scope.
Local Open Scope list_scope.

(** ** JavaScript values

    The values that flow through the plugin.  Numbers are never computed
    with, they are only carried from attributes to properties, so an integer
    stands for them.  [VFun id] is an opaque function or class (a React
    component, a provider) known by its identity; [VConst v] is the arrow
    function [() => v] that the registry builds around a registered element;
    [VElem type props] is what [React.createElement(type, props)] returns. *)

Inductive value : Type :=
  | VUndefined
  | VNull
  | VBool (b : bool)
  | VNum (n : Z)
  | VStr (s : string)
  | VObj (fields : list (string * value))
  | VArr (items : list value)
  | VFun (id : string)
  | VConst (result : value)
  | VElem (type : value) (props : list (string * value)).

(** ** Plain objects

    A plain object is the list of its own enumerable string-keyed properties
    in the order [Object.keys] reports them.  Reading looks the key up,
    writing replaces the value in place when the key exists and appends it
    otherwise, which is the insertion order of an object whose keys are not
    array indices.  No own key is [__proto__], whose assignment would set the
    prototype instead. *)

Module Obj.

Definition t (A : Type) : Type := list (string * A).

Definition empty {A : Type} : t A := [].

(** [key in o] restricted to own properties, with the stored value. *)
Fixpoint lookup {A : Type} (k : string) (o : t A) : option A :=
  match o with
  | [] => None
  | (k', v) :: rest => if decide (k = k') then Some v else lookup k rest
  end.

(** [o[k] = v] *)
Fixpoint set {A : Type} (k : string) (v : A) (o : t A) : t A :=
  match o with
  | [] => [(k, v)]
  | (k', v') :: rest =>
      if decide (k = k') then (k, v) :: rest else (k', v') :: set k v rest
  end.

(** [Object.keys(o)] and [Object.values(o)] *)
Definition keys {A : Type} (o : t A) : list string := map fst o.
Definition values {A : Type} (o : t A) : list A := map snd o.

(** [xs.forEach(body)] where the body updates a state. *)
Definition forEach {X S : Type} (xs : list X) (body : X → S → S) (s : S) : S :=
  fold_left (λ acc x, body x acc) xs s.

End Obj.

Abbreviation obj := (Obj.t value).

(** [o[k]] on a plain attribute or property object: [undefined] when the
    key is absent. *)
Definition get (k : string) (o : obj) : value :=
  match Obj.lookup k o with
  | Some v => v
  | None => VUndefined
  end.

(** [Object.assign(target, source)], also the object spread
    [{...target, ...source}] on a fresh copy. *)
Definition assign (target source : obj) : obj :=
  Obj.forEach (Obj.keys source) (λ key acc, Obj.set key (get key source) acc) target.

(** ** Completions and the console *)

(** A call either returns or throws a value. *)
Inductive completion (A : Type) : Type :=
  | Returned (a : A)
  | Thrown (e : value).
Arguments Returned {A} a.
Arguments Thrown {A} e.

(** The ambient logging channel: the argument lists of the [console.warn]
    calls made so far, oldest first. *)
Definition console : Type := list (list value).

Definition warn (args : list value) (log : console) : console := log ++ [args].

(** ** Calls that log and may throw

    The caller's [mapProps] and [wrapComponent], and the render hook itself,
    run against the console and either return or throw. *)

Definition M (A : Type) : Type := console → completion A * console.

#[global] Instance M_ret : MRet M := λ A a log, (Returned a, log).

#[global] Instance M_bind : MBind M := λ A B k m log,
  match m log with
  | (Returned a, log') => k a log'
  | (Thrown e, log') => (Thrown e, log')
  end.

(** [xs.forEach(body)] where the body logs. *)
Fixpoint forEachM {X S : Type} (xs : list X) (body : X → S → M S) (s : S) : M S :=
  match xs with
  | [] => mret s
  | x :: xs => s' ← body x s; forEachM xs body s'
  end.

(** ** The helpers module *)

Section Helpers.

(** [JSON.parse] is the host's: it returns the decoded value or throws a
    [SyntaxError]. *)
Variable JSON_parse : string → completion value.

(** [parseJsonTrait(value)] *)
Definition parseJsonTrait (v : value) : M value :=
  match v with
  | VStr s =>
      λ log,
        match JSON_parse s with
        | Returned parsed => (Returned parsed, log)
        | Thrown _ => (Returned v, warn [VStr "Failed to parse JSON trait:"; v] log)
        end
  | _ => mret v
  end.

(** [createWrapperMapper(wrapperKey, defaults)(attrs)] *)
Definition createWrapperMapper (wrapperKey : string) (defaults : obj) (attrs : obj) : obj :=
  let wrapped : obj := Obj.empty in
  let wrapped :=
    Obj.forEach (Obj.keys defaults) (λ key wrapped,
      match get key defaults with
      | VUndefined => wrapped
      | v => Obj.set key v wrapped
      end) wrapped in
  let wrapped :=
    Obj.forEach (Obj.keys attrs) (λ key wrapped,
      match get key attrs with
      | VUndefined | VNull => wrapped
      | v => Obj.set key v wrapped
      end) wrapped in
  let result : obj := Obj.empty in
  let typedWrapped := assign (assign Obj.empty defaults) wrapped in
  Obj.set wrapperKey (VObj typedWrapped) result.

(** [mergeDefaults(defaults, attrs)] *)
Definition mergeDefaults (defaults attrs : obj) : obj :=
  let result := assign Obj.empty defaults in
  Obj.forEach (Obj.keys attrs) (λ key result,
    match get key attrs with
    | VUndefined | VStr "" => result
    | v => Obj.set key v result
    end) result.

End Helpers.

(** ** The plugin module: the data model *)

(** [TraitDefinition], a union tagged by [type]. *)
Inductive TraitDefinition : Type :=
  | TText (name label : string) (defaultValue : option string)
  | TNumber (name label : string) (defaultValue min max step : option Z)
  | TSelect (name label : string) (options : list (string * string))
      (defaultValue : option string)
  | TCheckbox (name label : string) (defaultValue : option bool)
  | TColor (name label : string) (defaultValue : option string)
  | TTextarea (name label : string) (defaultValue : option string)
  | TJson (name label : string) (defaultValue : option string).

(** [trait.name] *)
Definition trait_name (t : TraitDefinition) : string :=
  match t with
  | TText n _ _ | TNumber n _ _ _ _ _ | TSelect n _ _ _ | TCheckbox n _ _
  | TColor n _ _ | TTextarea n _ _ | TJson n _ _ => n
  end.

(** [trait.type === 'json'] *)
Definition is_json (t : TraitDefinition) : bool :=
  match t with
  | TJson _ _ _ => true
  | _ => false
  end.

(** [ComponentConfig]; [mapProps] is the caller's function, which may throw. *)
Record ComponentConfig : Type := {
  component : value;
  traits : option (list TraitDefinition);
  defaultProps : option obj;
  mapProps : option (obj → M obj);
}.

(** [ProviderConfig] *)
Record ProviderConfig : Type := {
  provider_component : value;
  provider_props : option obj;
}.

(** What [components] may hold under a name: a function or class component
    ([typeof comp === 'function']), a React element
    ([React.isValidElement(comp)]), or a [ComponentConfig]. *)
Inductive registration : Type :=
  | BareComponent (comp : value)
  | BareElement (comp : value)
  | Described (config : ComponentConfig).

(** [ReactComponentsPluginOptions] *)
Record ReactComponentsPluginOptions : Type := {
  components : Obj.t registration;
  defaultComponent : option string;
  Provider : option value;
  providerProps : option obj;
  providers : option (list ProviderConfig);
  wrapComponent : option (value → value → M value);
}.

(** The view object of a canvas node as the render hook uses it: the DOM
    element it owns, what [model.getAttributes()] returns, and the React
    root once there is one.  A root remembers its container and the element
    last handed to [root.render]. *)
Record Root : Type := {
  container : string;
  rendered : option value;
}.

Record View : Type := {
  el : string;
  attributes : obj;
  _root : option Root;
}.

(** The [this] of a view hook: any object at all, of which
    [hasViewProperties] accepts the ones shaped like a view. *)
Inductive host_object : Type :=
  | Foreign
  | HostView (view : View).

Definition hasViewProperties (this : host_object) : option View :=
  match this with
  | Foreign => None
  | HostView view => Some view
  end.

(** ** The plugin module: createProviderWrapper *)

(** [xs.reduceRight(f, init)]: the accumulator is threaded from the last
    item to the first. *)
Definition reduceRight {X S : Type} (f : S → X → S) (init : S) (xs : list X) : S :=
  fold_left f (rev xs) init.

(** [React.createElement(type, props)] *)
Definition createElement (type : value) (props : obj) : value := VElem type props.

(** [props ? { ...props, children } : { children }] *)
Definition with_children (props : option obj) (children : value) : obj :=
  match props with
  | Some props => Obj.set "children" children (assign Obj.empty props)
  | None => Obj.set "children" children Obj.empty
  end.

Definition createProviderWrapper (options : ReactComponentsPluginOptions)
  : value → value → M value :=
  match wrapComponent options with
  | Some wrapComponent =>
      λ element componentName, wrapComponent element componentName
  | None =>
      match providers options with
      | Some (p :: ps) =>
          let providers := p :: ps in
          λ element _,
            mret (reduceRight (λ acc providerConfig,
              let props := with_children (provider_props providerConfig) acc in
              createElement (provider_component providerConfig) props)
              element providers)
      | _ =>
          match Provider options with
          | Some Provider =>
              λ element _,
                let props := with_children (providerProps options) element in
                mret (createElement Provider props)
          | None => λ element _, mret element
          end
      end
  end.

(** ** The plugin module: createReactComponentsPlugin

    The bindings the plugin closure holds, each as a function of the options
    it was created from, then the [render] hook of the [react-comp] view. *)

(** [defaultComponent || Object.keys(components)[0]]: a missing or empty
    [defaultComponent] is falsy; the result is [undefined] when nothing is
    registered either. *)
Definition fallbackName (options : ReactComponentsPluginOptions) : option string :=
  match defaultComponent options with
  | Some name => if decide (name = "") then head (Obj.keys (components options)) else Some name
  | None => head (Obj.keys (components options))
  end.

Definition wrapWithProviders (options : ReactComponentsPluginOptions)
  : value → value → M value :=
  createProviderWrapper options.

(** The traits given to a component registered without a config. *)
Definition default_traits : list TraitDefinition :=
  [ TText "title" "Title" None;
    TText "subtitle" "Subtitle" None;
    TText "description" "Description" None ].

Definition normalizedComponents (options : ReactComponentsPluginOptions)
  : Obj.t ComponentConfig :=
  Obj.forEach (Obj.keys (components options)) (λ name normalizedComponents,
    match Obj.lookup name (components options) with
    | Some (BareComponent comp) =>
        Obj.set name
          {| component := comp; traits := Some default_traits;
             defaultProps := None; mapProps := None |} normalizedComponents
    | Some (BareElement comp) =>
        Obj.set name
          {| component := VConst comp; traits := Some default_traits;
             defaultProps := None; mapProps := None |} normalizedComponents
    | Some (Described comp) => Obj.set name comp normalizedComponents
    | None => normalizedComponents
    end) Obj.empty.

(** The component-selector trait, then every trait of every component whose
    name [baseTraits] does not hold yet. *)
Definition baseTraits (options : ReactComponentsPluginOptions) : list TraitDefinition :=
  let baseTraits :=
    [ TSelect "component" "Component"
        (map (λ name, (name, name)) (Obj.keys (normalizedComponents options))) None ] in
  Obj.forEach (Obj.values (normalizedComponents options)) (λ config baseTraits,
    match traits config with
    | Some traits =>
        Obj.forEach traits (λ trait baseTraits,
          match find (λ t, bool_decide (trait_name t = trait_name trait)) baseTraits with
          | None => baseTraits ++ [trait]
          | Some _ => baseTraits
          end) baseTraits
    | None => baseTraits
    end) baseTraits.

(** [traitsMap], a [Map] from trait name to trait; a trait with an empty
    name is not stored. *)
Definition traitsMap (options : ReactComponentsPluginOptions)
  : gmap string TraitDefinition :=
  Obj.forEach (baseTraits options) (λ trait traitsMap,
    if decide (trait_name trait = "") then traitsMap
    else <[trait_name trait := trait]> traitsMap) ∅.

(** The [defaults] of the [react-comp] type registered with the editor. *)
Record TypeDefaults : Type := {
  tagName : string;
  droppable : bool;
  default_attributes : obj;
  default_traits_list : list TraitDefinition;
}.

Definition of_name (name : option string) : value :=
  match name with
  | Some name => VStr name
  | None => VUndefined
  end.

Definition react_comp_defaults (options : ReactComponentsPluginOptions) : TypeDefaults :=
  {| tagName := "div";
     droppable := false;
     default_attributes :=
       [ ("data-gjs-type", VStr "react-comp");
         ("component", of_name (fallbackName options)) ];
     default_traits_list := baseTraits options |}.

(** The property key a value used as an index stands for; only strings and
    [undefined] reach it. *)
Definition toPropertyKey (v : value) : string :=
  match v with
  | VStr s => s
  | _ => "undefined"
  end.

(** The members every plain object inherits from [Object.prototype]. *)
Definition Object_prototype_members : list string :=
  [ "constructor"; "hasOwnProperty"; "isPrototypeOf"; "propertyIsEnumerable";
    "toLocaleString"; "toString"; "valueOf"; "__proto__";
    "__defineGetter__"; "__defineSetter__"; "__lookupGetter__"; "__lookupSetter__" ].

(** How the render hook sees an inherited member it took for a config: a
    truthy object on which [component], [defaultProps] and [mapProps] are
    all [undefined]. *)
Definition inherited_member : ComponentConfig :=
  {| component := VUndefined; traits := None; defaultProps := None; mapProps := None |}.

(** [normalizedComponents[componentName]] as the test [if (!config)] sees
    it: the registered config, else an inherited member of the plain object
    [normalizedComponents], else [undefined]. *)
Definition normalizedComponents_at (options : ReactComponentsPluginOptions)
    (key : string) : option ComponentConfig :=
  match Obj.lookup key (normalizedComponents options) with
  | Some config => Some config
  | None =>
      if bool_decide (key ∈ Object_prototype_members) then Some inherited_member else None
  end.

(** [createRoot(container)] and [root.render(element)] *)
Definition createRoot (container : string) : Root :=
  {| container := container; rendered := None |}.

Definition root_render (root : Root) (element : value) : Root :=
  {| container := container root; rendered := Some element |}.

Section Render.

Variable JSON_parse : string → completion value.

(** The attributes kept for mapping: strings, numbers, booleans,
    [undefined] and [null]. *)
Definition toComponentAttributes (attrsRaw : obj) : obj :=
  Obj.forEach (Obj.keys attrsRaw) (λ key attrs,
    match get key attrsRaw with
    | (VStr _ | VNum _ | VBool _ | VUndefined | VNull) as v => Obj.set key v attrs
    | _ => attrs
    end) Obj.empty.

(** [(typeof attrs.component === 'string' ? attrs.component : undefined)
    || fallbackName] *)
Definition componentName (options : ReactComponentsPluginOptions) (attrs : obj) : value :=
  match get "component" attrs with
  | VStr name => if decide (name = "") then of_name (fallbackName options) else VStr name
  | _ => of_name (fallbackName options)
  end.

(** The default props seeded into [rawProps]. *)
Definition seedDefaultProps (config : ComponentConfig) (rawProps : obj) : obj :=
  match defaultProps config with
  | Some defaultProps =>
      Obj.forEach (Obj.keys defaultProps) (λ key rawProps,
        match get key defaultProps with
        | VUndefined => rawProps
        | v => Obj.set key v rawProps
        end) rawProps
  | None => rawProps
  end.

(** One turn of the loop that passes the attributes on as props. *)
Definition passAttribute (options : ReactComponentsPluginOptions) (attrs : obj)
    (key : string) (state : obj * console) : obj * console :=
  let '(rawProps, log) := state in
  let v := get key attrs in
  if bool_decide (key ≠ "component") && bool_decide (key ≠ "data-gjs-type")
     && match v with VUndefined | VNull | VStr "" => false | _ => true end
  then
    match traitsMap options !! key, v with
    | Some trait, VStr s =>
        if is_json trait then
          match JSON_parse s with
          | Returned parsed => (Obj.set key parsed rawProps, log)
          | Thrown _ =>
              (Obj.set key v rawProps,
               warn [VStr ("Failed to parse JSON trait " ++ key ++ ":"); v] log)
          end
        else (Obj.set key v rawProps, log)
    | _, _ => (Obj.set key v rawProps, log)
    end
  else (rawProps, log).

(** [rawProps] as it stands after both loops. *)
Definition rawProps (options : ReactComponentsPluginOptions) (config : ComponentConfig)
    (attrs : obj) (log : console) : obj * console :=
  let rawProps := seedDefaultProps config Obj.empty in
  Obj.forEach (Obj.keys attrs) (passAttribute options attrs) (rawProps, log).

(** [finalProps]: [rawProps] is built first in either case, then the
    custom mapper, when there is one, is applied to the attributes. *)
Definition finalProps (options : ReactComponentsPluginOptions) (config : ComponentConfig)
    (attrs : obj) : M obj :=
  rawProps ← (λ log, let '(rawProps, log) := rawProps options config attrs log in
                     (Returned rawProps, log));
  match mapProps config with
  | Some mapProps => mapProps attrs
  | None => mret rawProps
  end.

Definition render (options : ReactComponentsPluginOptions) (this : host_object)
  : M host_object :=
  match hasViewProperties this with
  | None => mret this
  | Some view =>
      let attrsRaw := attributes view in
      let attrs := toComponentAttributes attrsRaw in
      let componentName := componentName options attrs in
      match normalizedComponents_at options (toPropertyKey componentName) with
      | None => mret (HostView view)
      | Some config =>
          let Comp := component config in
          finalProps ← finalProps options config attrs;
          let element := createElement Comp finalProps in
          wrappedElement ← wrapWithProviders options element componentName;
          let root := match _root view with
                      | Some root => root
                      | None => createRoot (el view)
                      end in
          mret (HostView {| el := el view; attributes := attributes view;
                            _root := Some (root_render root wrappedElement) |})
      end
  end.

End Render.


(** ** src/factories.ts *)

Section Factories.

Variable JSON_parse : string → completion value.

(** [createJsonComponentConfig(component, traits, jsonFields, defaultProps,
    mapProps)] *)
Definition createJsonComponentConfig (component : value)
    (traits : list TraitDefinition) (jsonFields : list string)
    (defaultProps : obj) (mapProps : option (obj → M obj)) : ComponentConfig :=
  {| component := component;
     traits := Some traits;
     defaultProps := Some defaultProps;
     mapProps := Some (λ attrs : obj,
       parsed ← forEachM (Obj.keys attrs) (λ key (parsed : obj),
         match bool_decide (key ∈ jsonFields), get key attrs with
         | true, (VStr _) as v =>
             decoded ← parseJsonTrait JSON_parse v; mret (Obj.set key decoded parsed)
         | _, (VUndefined | VNull) => mret parsed
         | _, v => mret (Obj.set key v parsed)
         end) Obj.empty;
       match mapProps with
       | Some mapProps => mapProps parsed
       | None =>
           mret (Obj.forEach (Obj.keys parsed) (λ key (result : obj),
             match get key parsed with
             | VUndefined => result
             | v => Obj.set key v result
             end) Obj.empty)
       end) |}.

(** [createWrapperComponentConfig(component, wrapperKey, traits,
    wrapperDefaults, defaultProps)]; the wrapper value is an object, hence
    truthy. *)
Definition createWrapperComponentConfig (component : value) (wrapperKey : string)
    (traits : list TraitDefinition) (wrapperDefaults defaultProps : obj)
  : ComponentConfig :=
  let mapPropsFn := createWrapperMapper wrapperKey wrapperDefaults in
  {| component := component;
     traits := Some traits;
     defaultProps := Some defaultProps;
     mapProps := Some (λ attrs : obj,
       let result := mapPropsFn attrs in
       let wrapperValue := get wrapperKey result in
       match wrapperValue with
       | VUndefined | VNull | VBool false | VStr "" | VNum 0 => mret result
       | _ => mret (Obj.set wrapperKey wrapperValue Obj.empty)
       end) |}.

End Factories.

(** ** The helpers module: reusable traits and provider builders *)

(** [commonTraits] *)
Module commonTraits.

Definition title : TraitDefinition := TText "title" "Title" None.
Definition subtitle : TraitDefinition := TText "subtitle" "Subtitle" None.
Definition description : TraitDefinition := TTextarea "description" "Description" None.
Definition textColor : TraitDefinition := TColor "textColor" "Text Color" (Some "#000000").
Definition backgroundColor : TraitDefinition :=
  TColor "backgroundColor" "Background Color" (Some "#ffffff").
Definition visible : TraitDefinition := TCheckbox "visible" "Visible" (Some true).
Definition disabled : TraitDefinition := TCheckbox "disabled" "Disabled" (Some false).

End commonTraits.

(** [createProvider(component, props)] *)
Definition createProvider (component : value) (props : option obj) : ProviderConfig :=
  {| provider_component := component; provider_props := props |}.

(** [createProviderStack(providers)], each entry a pair [[component, props?]]. *)
Definition createProviderStack (providers : list (value * option obj))
  : list ProviderConfig :=
  map (λ '(component, props), createProvider component props) providers.

(** Whether a value passes [if (value)]. *)
Definition truthy (v : value) : bool :=
  match v with
  | VUndefined | VNull | VBool false | VNum 0 | VStr "" => false
  | _ => true
  end.

(** [new Error(message)] and the [TypeError] of a member read on
    [undefined] or [null], as the objects a handler sees. *)
Definition Error (message : string) : value :=
  VObj [("name", VStr "Error"); ("message", VStr message)].

Definition TypeError (message : string) : value :=
  VObj [("name", VStr "TypeError"); ("message", VStr message)].

(** [v.k]: it throws on [undefined] and [null], reads the property of an
    object, and finds nothing on the other values (an opaque function is
    taken to carry no property of its own). *)
Definition member (k : string) (v : value) : completion value :=
  match v with
  | VUndefined | VNull =>
      Thrown (TypeError ("Cannot read properties of undefined (reading '" ++ k ++ "')"))
  | VObj fields => Returned (get k fields)
  | _ => Returned VUndefined
  end.

Section Redux.

(** [new Function('moduleName', 'return require(moduleName)')] is the
    host's: building the function may throw (where evaluating code from
    text is not allowed), and so may calling it (no [require], no such
    module). *)
Variable new_Function_require : completion (string → completion value).

Definition getReactRedux : completion value :=
  match new_Function_require with
  | Thrown e => Thrown e
  | Returned requireFunc =>
      match requireFunc "react-redux" with
      | Returned reactRedux => Returned reactRedux
      | Thrown _ =>
          Thrown (Error "react-redux is not installed. Install it to use createReduxProvider: npm install react-redux")
      end
  end.

(** [createReduxProvider(store)] *)
Definition createReduxProvider (store : value) : completion ProviderConfig :=
  match getReactRedux with
  | Thrown e => Thrown e
  | Returned reactRedux =>
      match member "Provider" reactRedux with
      | Thrown e => Thrown e
      | Returned Provider =>
          if truthy Provider
          then Returned {| provider_component := Provider;
                           provider_props := Some [("store", store)] |}
          else Thrown (Error "react-redux Provider not found")
      end
  end.

End Redux.

(** ** src/factories.ts: the other factories *)

(** [createUiComponentConfig(component, customTraits, uiComponentDefaults)] *)
Definition createUiComponentConfig (component : value)
    (customTraits : list TraitDefinition) (uiComponentDefaults : obj) : ComponentConfig :=
  let baseTraits := [commonTraits.title; commonTraits.description] ++ customTraits in
  let mapPropsFn := createWrapperMapper "uiComponent" uiComponentDefaults in
  {| component := component;
     traits := Some baseTraits;
     defaultProps := None;
     mapProps := Some (λ attrs : obj,
       let result := mapPropsFn attrs in
       let uiComponent := get "uiComponent" result in
       if truthy uiComponent
       then mret (Obj.set "uiComponent" uiComponent Obj.empty)
       else mret (Obj.set "uiComponent" (VObj Obj.empty) Obj.empty)) |}.

(** [createSimpleComponentConfig(component, traits, defaultProps)] *)
Definition createSimpleComponentConfig (component : value)
    (traits : list TraitDefinition) (defaultProps : obj) : ComponentConfig :=
  {| component := component;
     traits := Some traits;
     defaultProps := Some defaultProps;
     mapProps := None |}.

(** ** The plugin module: the [removed] hook *)

(** [removed()]: the view afterwards and the root whose [unmount()] was
    called, if any. *)
Definition removed (this : host_object) : host_object * option Root :=
  match hasViewProperties this with
  | None => (this, None)
  | Some view =>
      match _root view with
      | Some root =>
          (HostView {| el := el view; attributes := attributes view; _root := None |},
           Some root)
      | None => (HostView view, None)
      end
  end.

(** ** The plugin module: the palette blocks *)

(** The characters of the templates that a string literal here cannot
    hold. *)
Definition quote : string := String (Ascii.ascii_of_nat 34) EmptyString.
Definition newline : string := String (Ascii.ascii_of_nat 10) EmptyString.

(** [trait.defaultValue], when the trait has one that is not [undefined]. *)
Definition trait_defaultValue (t : TraitDefinition) : option value :=
  match t with
  | TText _ _ d | TSelect _ _ _ d | TColor _ _ d | TTextarea _ _ d | TJson _ _ d =>
      VStr <$> d
  | TNumber _ _ d _ _ _ => VNum <$> d
  | TCheckbox _ _ d => VBool <$> d
  end.

(** What [bm.add(id, block)] is given. *)
Record Block : Type := {
  block_label : string;
  block_category : string;
  block_content : string;
}.

Section Blocks.

(** [String(value)] and [name.toLowerCase()] are the host's. *)
Variable String_ : value → string.
Variable toLowerCase : string → string.

(** [typeof value === 'string' ? value : String(value)] *)
Definition stringValue (v : value) : string :=
  match v with
  | VStr s => s
  | _ => String_ v
  end.

(** [`${key}="${stringValue}"`] *)
Definition attribute_text (key : string) (v : value) : string :=
  key ++ "=" ++ quote ++ stringValue v ++ quote.

(** [defaultAttrs] of the block of one component, after both loops. *)
Definition defaultAttrs (name : string) (config : ComponentConfig) : list string :=
  let defaultAttrs := [("component=" ++ quote ++ name ++ quote)%string] in
  let defaultAttrs :=
    match defaultProps config with
    | Some defaultProps =>
        Obj.forEach defaultProps (λ '(key, v) defaultAttrs,
          match v with
          | VUndefined | VNull => defaultAttrs
          | _ => defaultAttrs ++ [attribute_text key v]
          end) defaultAttrs
    | None => defaultAttrs
    end in
  match traits config with
  | Some traits =>
      Obj.forEach traits (λ trait defaultAttrs,
        match trait_defaultValue trait with
        | Some defaultValue =>
            let exists_ := existsb (String.prefix (trait_name trait ++ "=")) defaultAttrs in
            if exists_ then defaultAttrs
            else defaultAttrs ++ [attribute_text (trait_name trait) defaultValue]
        | None => defaultAttrs
        end) defaultAttrs
  | None => defaultAttrs
  end.

(** The calls [bm.add(id, block)] the plugin makes, in order. *)
Definition blocks (options : ReactComponentsPluginOptions) : list (string * Block) :=
  Obj.forEach (Obj.keys (normalizedComponents options)) (λ name added,
    match Obj.lookup name (normalizedComponents options) with
    | Some config =>
        added ++
        [(("react-" ++ toLowerCase name)%string,
          {| block_label := name ++ " (React)";
             block_category := "React";
             block_content :=
               newline ++ "          <div data-gjs-type=" ++ quote ++ "react-comp" ++ quote
               ++ " " ++ String.concat " " (defaultAttrs name config) ++ ">"
               ++ newline ++ "          </div>" ++ newline ++ "        " |})]
    | None => added
    end) [].

End Blocks.

(** The attribute texts that come from [defaultProps]: one for each entry
    that is neither [undefined] nor [null], in order. *)
Definition texts_of_defaultProps (String_ : value → string) (config : ComponentConfig)
  : list string :=
  omap (λ '(key, v), match v with
                     | VUndefined | VNull => None
                     | _ => Some (attribute_text String_ key v)
                     end)
       (default [] (defaultProps config)).

(** * Notions the properties are stated with *)

(** The guard of the wrapper mapper on an attribute value: everything but
    [undefined] and [null] is copied. *)
Definition wrapper_keeps (v : value) : bool :=
  match v with
  | VUndefined | VNull => false
  | _ => true
  end.

(** The default a descriptor supplies for a key, if any; an [undefined]
    entry of [defaultProps] supplies none. *)
Definition default_for (config : ComponentConfig) (k : string) : option value :=
  match defaultProps config with
  | Some defaultProps =>
      match Obj.lookup k defaultProps with
      | Some VUndefined => None
      | found => found
      end
  | None => None
  end.

(** What the default mapping path writes under an attribute key, if
    anything: nothing for a reserved key or an absent value, the decoded
    value for a string under a name that [traitsMap] marks as JSON (the
    string itself when decoding throws), the value itself otherwise. *)
Definition passed_value (JSON_parse : string → completion value)
    (options : ReactComponentsPluginOptions) (attrs : obj) (key : string) : option value :=
  let v := get key attrs in
  if bool_decide (key ≠ "component") && bool_decide (key ≠ "data-gjs-type")
     && match v with VUndefined | VNull | VStr "" => false | _ => true end
  then
    Some match traitsMap options !! key, v with
         | Some trait, VStr s =>
             if is_json trait then
               match JSON_parse s with
               | Returned parsed => parsed
               | Thrown _ => v
               end
             else v
         | _, _ => v
         end
  else None.

(** [JSON.parse] under the mapper's [try]/[catch]: the decoded value, or
    the text itself when decoding throws. *)
Definition decoded (JSON_parse : string → completion value) (s : string) : value :=
  match JSON_parse s with
  | Returned parsed => parsed
  | Thrown _ => VStr s
  end.

(** The descriptor [normalizedComponents] holds for a registered value. *)
Definition normalized (r : registration) : ComponentConfig :=
  match r with
  | BareComponent comp =>
      {| component := comp; traits := Some default_traits;
         defaultProps := None; mapProps := None |}
  | BareElement comp =>
      {| component := VConst comp; traits := Some default_traits;
         defaultProps := None; mapProps := None |}
  | Described config => config
  end.

(** The component-selector trait: a select over the registered names. *)
Definition selector_trait (options : ReactComponentsPluginOptions) : TraitDefinition :=
  TSelect "component" "Component"
    (map (λ name, (name, name)) (Obj.keys (normalizedComponents options))) None.

(** Every trait of every registered descriptor, in registration order and,
    within a descriptor, in declaration order. *)
Definition all_traits (options : ReactComponentsPluginOptions) : list TraitDefinition :=
  concat (map (λ config, default [] (traits config))
              (Obj.values (normalizedComponents options))).

Definition named (n : string) (t : TraitDefinition) : bool :=
  bool_decide (trait_name t = n).

(** The first-declared trait of a name across all registered descriptors. *)
Definition first_declared (options : ReactComponentsPluginOptions) (n : string)
  : option TraitDefinition :=
  find (named n) (all_traits options).

(** Whether the first-declared trait of that name is a JSON trait. *)
Definition declared_json (options : ReactComponentsPluginOptions) (n : string) : bool :=
  match first_declared options n with
  | Some t => is_json t
  | None => false
  end.

(** One turn of the loop that merges the traits: a trait is pushed unless
    one of its name is there already. *)
Definition push_new (acc : list TraitDefinition) (trait : TraitDefinition)
  : list TraitDefinition :=
  match find (λ t, bool_decide (trait_name t = trait_name trait)) acc with
  | None => acc ++ [trait]
  | Some _ => acc
  end.

(** The element a completed render left mounted in the view's root. *)
Definition mounted (result : completion host_object * console) : option value :=
  match result with
  | (Returned (HostView view), _) =>
      match _root view with
      | Some root => rendered root
      | None => None
      end
  | _ => None
  end.

(** The values an attribute may hold according to [ComponentAttributes]. *)
Definition primitive (v : value) : bool :=
  match v with
  | VStr _ | VNum _ | VBool _ | VUndefined | VNull => true
  | _ => false
  end.

(** The descriptor the render hook selects for a node's attributes, as
    its test [if (!config)] sees it. *)
Definition selected_config (options : ReactComponentsPluginOptions) (attrs : obj)
  : option ComponentConfig :=
  normalizedComponents_at options (toPropertyKey (componentName options attrs)).

(** The view after [root.render(element)], on the root it has or a new one. *)
Definition view_mounting (view : View) (element : value) : View :=
  {| el := el view; attributes := attributes view;
     _root := Some (root_render (default (createRoot (el view)) (_root view)) element) |}.

(** Providers nested from the first, outermost, to the last, which wraps
    the element. *)
Fixpoint nested (providers : list ProviderConfig) (element : value) : value :=
  match providers with
  | [] => element
  | outer :: inner =>
      VElem (provider_component outer)
            (with_children (provider_props outer) (nested inner element))
  end.

(** The wrapping strategies, and the one a configuration selects, in the
    order of priority. *)
Inductive strategy : Type :=
  | UseCustomWrapper (wrap : value → value → M value)
  | UseProviderList (providers : list ProviderConfig)
  | UseSingleProvider (Provider : value) (providerProps : option obj)
  | UseIdentity.

Definition selected_strategy (options : ReactComponentsPluginOptions) : strategy :=
  match wrapComponent options with
  | Some wrap => UseCustomWrapper wrap
  | None =>
      match providers options with
      | Some (p :: ps) => UseProviderList (p :: ps)
      | _ =>
          match Provider options with
          | Some P => UseSingleProvider P (providerProps options)
          | None => UseIdentity
          end
      end
  end.

Definition wrap_by (st : strategy) (element name : value) : M value :=
  match st with
  | UseCustomWrapper wrap => wrap element name
  | UseProviderList providers => mret (nested providers element)
  | UseSingleProvider P props => mret (VElem P (with_children props element))
  | UseIdentity => mret element
  end.

(** ** Sample data *)

(** A table standing in for [JSON.parse] on the texts the examples use:
    [{}] and [[1]] decode, [{oops] is no JSON text. *)
Definition JSON_parse_sample (s : string) : completion value :=
  if decide (s = "{}") then Returned (VObj [])
  else if decide (s = "[1]") then Returned (VArr [VNum 1])
  else Thrown (VStr "SyntaxError").

Module Sample.

(** A descriptor with the default [{a: 1}] and no mapper. *)
Definition with_default : ComponentConfig :=
  {| component := VFun "Box"; traits := Some [TText "a" "A" None];
     defaultProps := Some [("a", VNum 1)]; mapProps := None |}.

Definition box_options : ReactComponentsPluginOptions :=
  {| components := [("Box", Described with_default)];
     defaultComponent := None; Provider := None; providerProps := None;
     providers := None; wrapComponent := None |}.

(** Two descriptors that both declare a trait named [title], with
    different labels. *)
Definition two_titles : ReactComponentsPluginOptions :=
  {| components :=
       [ ("Hero", Described {| component := VFun "Hero";
                               traits := Some [TText "title" "Heading" None];
                               defaultProps := None; mapProps := None |});
         ("Card", Described {| component := VFun "Card";
                               traits := Some [TText "title" "Caption" None;
                                               TTextarea "body" "Body" None];
                               defaultProps := None; mapProps := None |}) ];
     defaultComponent := None; Provider := None; providerProps := None;
     providers := None; wrapComponent := None |}.

(** [Table] declares [data] as JSON first; [Note], registered after it,
    declares [data] as text. *)
Definition table : ComponentConfig :=
  {| component := VFun "Table"; traits := Some [TJson "data" "Data" None];
     defaultProps := None; mapProps := None |}.

Definition note : ComponentConfig :=
  {| component := VFun "Note"; traits := Some [TText "data" "Data" None];
     defaultProps := None; mapProps := None |}.

Definition json_first : ReactComponentsPluginOptions :=
  {| components := [("Table", Described table); ("Note", Described note)];
     defaultComponent := None; Provider := None; providerProps := None;
     providers := None; wrapComponent := None |}.

Definition text_first : ReactComponentsPluginOptions :=
  {| components := [("Note", Described note); ("Table", Described table)];
     defaultComponent := None; Provider := None; providerProps := None;
     providers := None; wrapComponent := None |}.

(** A descriptor built by the JSON factory with no JSON field and no
    secondary mapper, and a node that selects it. *)
Definition json_card : ComponentConfig :=
  createJsonComponentConfig JSON_parse_sample (VFun "Card")
    [TText "title" "Title" None] [] [] None.

Definition card_options : ReactComponentsPluginOptions :=
  {| components := [("Card", Described json_card)];
     defaultComponent := None; Provider := None; providerProps := None;
     providers := None; wrapComponent := None |}.

Definition card_view : View :=
  {| el := "node-1";
     attributes := [ ("data-gjs-type", VStr "react-comp");
                     ("component", VStr "Card");
                     ("title", VStr "Hi") ];
     _root := None |}.

(** A descriptor whose defaults use a reserved key. *)
Definition preset_selector : ComponentConfig :=
  {| component := VFun "Box"; traits := None;
     defaultProps := Some [("component", VStr "preset")]; mapProps := None |}.

(** A descriptor built by the wrapper factory: its mapper is the wrapper
    mapper, and it has defaults of its own that the mapper does not look
    at. *)
Definition wrapped_card : ComponentConfig :=
  createWrapperComponentConfig (VFun "Card") "uiComponent"
    [TText "title" "Title" None] [("x", VNum 1)] [("unused", VNum 0)].

Definition wrapped_options : ReactComponentsPluginOptions :=
  {| components := [("Card", Described wrapped_card)];
     defaultComponent := None; Provider := None; providerProps := None;
     providers := None; wrapComponent := None |}.

(** One registered component, which is also the configured default, and a
    node whose selector names something else. *)
Definition hero_options : ReactComponentsPluginOptions :=
  {| components := [("Hero", BareComponent (VFun "Hero"))];
     defaultComponent := Some "Hero"; Provider := None; providerProps := None;
     providers := None; wrapComponent := None |}.

Definition ghost_view : View :=
  {| el := "node-2";
     attributes := [ ("data-gjs-type", VStr "react-comp");
                     ("component", VStr "Ghost") ];
     _root := None |}.

Definition plain_view : View :=
  {| el := "node-3";
     attributes := [ ("data-gjs-type", VStr "react-comp"); ("title", VStr "Hi") ];
     _root := None |}.

(** Two providers, [A] with props and [B] without. *)
Definition A : ProviderConfig :=
  {| provider_component := VFun "A"; provider_props := Some [("store", VNum 7)] |}.
Definition B : ProviderConfig :=
  {| provider_component := VFun "B"; provider_props := None |}.

Definition provider_options : ReactComponentsPluginOptions :=
  {| components := [("Hero", BareComponent (VFun "Hero"))];
     defaultComponent := None; Provider := Some (VFun "Single"); providerProps := None;
     providers := Some [A; B]; wrapComponent := None |}.

End Sample.

Module More.

(** One registered component, a default that names something else, and a
    node without a selector. *)
Definition typo_options : ReactComponentsPluginOptions :=
  {| components := [("Hero", BareComponent (VFun "Hero"))];
     defaultComponent := Some "Heroo"; Provider := None; providerProps := None;
     providers := None; wrapComponent := None |}.

(** A node whose selector is [constructor]. *)
Definition constructor_view : View :=
  {| el := "node-4";
     attributes := [ ("data-gjs-type", VStr "react-comp");
                     ("component", VStr "constructor");
                     ("title", VStr "Hi") ];
     _root := None |}.

(** A descriptor from the UI-component factory whose custom traits
    redefine [title], registered before a component with a [description]
    trait of its own. *)
Definition ui_options : ReactComponentsPluginOptions :=
  {| components :=
       [ ("Agenda", Described (createUiComponentConfig (VFun "Agenda")
                                 [TText "title" "Agenda name" None;
                                  TJson "entryList" "Entries (JSON)" None]
                                 [("groupBy", VStr "none")]));
         ("Hero", BareComponent (VFun "Hero")) ];
     defaultComponent := None; Provider := None; providerProps := None;
     providers := None; wrapComponent := None |}.

(** A descriptor from the JSON factory: [data] is a JSON-typed trait that
    is not listed as a JSON field, [rows] is listed and typed as text. *)
Definition grid : ComponentConfig :=
  createJsonComponentConfig JSON_parse_sample (VFun "Grid")
    [TJson "data" "Data" None; TText "rows" "Rows" None] ["rows"] [] None.

Definition grid_options : ReactComponentsPluginOptions :=
  {| components := [("Grid", Described grid)];
     defaultComponent := None; Provider := None; providerProps := None;
     providers := None; wrapComponent := None |}.

(** A loader that finds the [react-redux] module, and one that finds no
    module at all. *)
Definition require_found (moduleName : string) : completion value :=
  if decide (moduleName = "react-redux")
  then Returned (VObj [("Provider", VFun "ReduxProvider")])
  else Thrown (Error "Cannot find module").

Definition require_missing (moduleName : string) : completion value :=
  Thrown (Error "Cannot find module").

(** The plugin configured with the provider [createReduxProvider] found. *)
Definition redux_options : ReactComponentsPluginOptions :=
  {| components := [("Hero", BareComponent (VFun "Hero"))];
     defaultComponent := None;
     Provider := Some (VFun "ReduxProvider");
     providerProps := Some [("store", VStr "the store")];
     providers := None; wrapComponent := None |}.

(** A provider stack as the README builds one. *)
Definition stack : list (value * option obj) :=
  [ (VFun "ReduxProvider", Some [("store", VStr "the store")]);
    (VFun "ThemeProvider", None) ].

Definition stack_options : ReactComponentsPluginOptions :=
  {| components := [("Hero", BareComponent (VFun "Hero"))];
     defaultComponent := None; Provider := None; providerProps := None;
     providers := Some (createProviderStack stack); wrapComponent := None |}.

(** [String(value)] on the values the examples use. *)
Definition String_sample (v : value) : string :=
  match v with
  | VBool true => "true"
  | VBool false => "false"
  | VNum 3 => "3"
  | _ => "[object Object]"
  end.

(** The README's button: defaults for [label] and [href], and traits with
    default values of their own for [label] and [size]. *)
Definition button : ComponentConfig :=
  createSimpleComponentConfig (VFun "Button")
    [ TText "label" "Button Label" (Some "Click me");
      TNumber "size" "Size" (Some 3%Z) None None None ]
    [("label", VStr "Get Started"); ("href", VStr "#start")].

(** A descriptor whose mapper throws, and a node that selects it. *)
Definition throwing : ComponentConfig :=
  {| component := VFun "Card"; traits := None; defaultProps := None;
     mapProps := Some (λ _ log, (Thrown (Error "no title"), log)) |}.

Definition throwing_options : ReactComponentsPluginOptions :=
  {| components := [("Card", Described throwing)];
     defaultComponent := None; Provider := None; providerProps := None;
     providers := None; wrapComponent := None |}.

End More.

(** * Properties *)

(** ** Plain objects: reading after writing *)

Section ObjFacts.

Context {A : Type}.
Implicit Types (o : Obj.t A) (k : string).

Lemma lookup_set k k' (v : A) o :
  Obj.lookup k' (Obj.set k v o) = if decide (k' = k) then Some v else Obj.lookup k' o.
Proof.
  induction o as [|[k0 v0] o IH]; simpl.
  - repeat case_decide; congruence.
  - destruct (decide (k = k0)) as [->|Hne]; simpl.
    + repeat case_decide; congruence.
    + rewrite IH. repeat case_decide; congruence.
Qed.

Lemma elem_of_keys k o : k ∈ Obj.keys o ↔ is_Some (Obj.lookup k o).
Proof.
  unfold Obj.keys. induction o as [|[k0 v0] o IH]; simpl.
  - rewrite elem_of_nil. split; [done | intros [? ?]; discriminate].
  - rewrite elem_of_cons, IH. destruct (decide (k = k0)) as [->|Hne].
    + split; eauto.
    + split; [intros [?|?]; [congruence | done] | auto].
Qed.

Lemma not_elem_of_keys k o : k ∉ Obj.keys o ↔ Obj.lookup k o = None.
Proof. rewrite elem_of_keys, eq_None_not_Some. done. Qed.

(** A loop over keys whose body writes [g key] under [key], or nothing. *)
Lemma lookup_forEach_set (g : string → option A) body ks init k :
  (∀ key acc, body key acc = match g key with
                             | Some v => Obj.set key v acc
                             | None => acc
                             end) →
  Obj.lookup k (Obj.forEach ks body init) =
    match (if decide (k ∈ ks) then g k else None) with
    | Some v => Some v
    | None => Obj.lookup k init
    end.
Proof.
  intros Hbody. unfold Obj.forEach.
  revert init; induction ks as [|key ks IH]; intros init; cbn [fold_left].
  - destruct (decide (k ∈ [])) as [Hin|_]; [by apply elem_of_nil in Hin | done].
  - rewrite IH, Hbody.
    destruct (decide (k ∈ ks)) as [Hin|Hnin].
    + rewrite (decide_True (P := k ∈ key :: ks)) by (by right).
      destruct (g k) eqn:Hk; [done|].
      destruct (g key) eqn:Hkey; [|done].
      rewrite lookup_set. case_decide; [congruence | done].
    + destruct (decide (k = key)) as [->|Hne].
      * rewrite (decide_True (P := key ∈ key :: ks)) by (by left).
        destruct (g key); [|done]. rewrite lookup_set. by rewrite decide_True.
      * rewrite (decide_False (P := k ∈ key :: ks))
          by (rewrite elem_of_cons; intros [?|?]; done).
        destruct (g key); [|done]. rewrite lookup_set. by rewrite decide_False.
Qed.

End ObjFacts.

Lemma get_lookup k (o : obj) v : Obj.lookup k o = Some v → get k o = v.
Proof. unfold get. by intros ->. Qed.

Lemma lookup_assign (target source : obj) k :
  Obj.lookup k (assign target source) =
    match Obj.lookup k source with
    | Some v => Some v
    | None => Obj.lookup k target
    end.
Proof.
  unfold assign.
  rewrite (lookup_forEach_set (λ key, Some (get key source))) by done.
  case_decide as Hin.
  - apply elem_of_keys in Hin as [v Hv]. rewrite Hv. by rewrite (get_lookup _ _ _ Hv).
  - apply not_elem_of_keys in Hin. by rewrite Hin.
Qed.

Lemma lookup_app {A : Type} k (o1 o2 : Obj.t A) :
  Obj.lookup k (o1 ++ o2) =
    match Obj.lookup k o1 with
    | Some v => Some v
    | None => Obj.lookup k o2
    end.
Proof.
  induction o1 as [|[k0 v0] o1 IH]; simpl; [done|]. by case_decide.
Qed.

Lemma set_fresh {A : Type} k (v : A) (o : Obj.t A) :
  k ∉ Obj.keys o → Obj.set k v o = o ++ [(k, v)].
Proof.
  unfold Obj.keys. induction o as [|[k0 v0] o IH]; simpl; [done|].
  intros Hk. apply not_elem_of_cons in Hk as [Hne Hk].
  rewrite decide_False by done. by rewrite IH.
Qed.

Lemma lookup_elem_of {A : Type} k (v : A) (o : Obj.t A) :
  Obj.lookup k o = Some v → (k, v) ∈ o.
Proof.
  induction o as [|[k0 v0] o IH]; simpl; [done|].
  case_decide.
  - intros [= ->]. subst. by left.
  - intros H'. right. by apply IH.
Qed.

(** ** Rebuilding an object key by key *)

Section Rebuild.

Context {A B : Type}.

(** A loop over the keys of [o] that writes [f (o[key])] under each key
    builds the object [o] with [f] applied to its values, in order. *)
Lemma forEach_rebuild (f : A → B) (o : Obj.t A) (body : string → Obj.t B → Obj.t B) :
  NoDup (Obj.keys o) →
  (∀ key v acc, Obj.lookup key o = Some v → body key acc = Obj.set key (f v) acc) →
  Obj.forEach (Obj.keys o) body Obj.empty = map (λ kv, (kv.1, f kv.2)) o.
Proof.
  intros Hnd Hbody.
  enough (∀ l2 l1, o = l1 ++ l2 →
            Obj.forEach (Obj.keys l2) body (map (λ kv, (kv.1, f kv.2)) l1) =
            map (λ kv, (kv.1, f kv.2)) o) as Hgen by exact (Hgen o [] eq_refl).
  unfold Obj.forEach.
  induction l2 as [|[k v] l2 IH]; intros l1 Ho; cbn [Obj.keys map fst fold_left].
  - by rewrite Ho, app_nil_r.
  - assert (k ∉ Obj.keys l1) as Hfresh.
    { subst o. unfold Obj.keys in Hnd. rewrite map_app in Hnd.
      apply NoDup_app in Hnd as (_ & Hdisj & _).
      intros Hin. apply (Hdisj k Hin). simpl. by left. }
    rewrite (Hbody k v).
    2: { subst o. rewrite lookup_app.
         apply not_elem_of_keys in Hfresh. rewrite Hfresh. simpl.
         by rewrite decide_True. }
    rewrite set_fresh.
    2: { unfold Obj.keys in *. rewrite map_map. simpl. done. }
    specialize (IH (l1 ++ [(k, v)])). rewrite map_app in IH. apply IH.
    subst o. by rewrite <- app_assoc.
Qed.

End Rebuild.

(** On an object whose keys are distinct, [normalizedComponents] holds the
    normalized descriptor of every registered value, under the same names in
    the same order. *)
Lemma normalizedComponents_map options :
  NoDup (Obj.keys (components options)) →
  normalizedComponents options =
    map (λ kv, (kv.1, normalized kv.2)) (components options).
Proof.
  intros Hnd. unfold normalizedComponents.
  apply forEach_rebuild; [done|].
  intros key r acc ->. by destruct r.
Qed.

Lemma keys_normalizedComponents options :
  NoDup (Obj.keys (components options)) →
  Obj.keys (normalizedComponents options) = Obj.keys (components options).
Proof.
  intros Hnd. rewrite normalizedComponents_map by done.
  unfold Obj.keys. rewrite map_map. done.
Qed.

(** Attributes that are all primitive are kept as they are. *)
Lemma toComponentAttributes_primitive (attrsRaw : obj) :
  NoDup (Obj.keys attrsRaw) →
  Forall (λ kv, primitive kv.2 = true) attrsRaw →
  toComponentAttributes attrsRaw = attrsRaw.
Proof.
  intros Hnd Hprim. unfold toComponentAttributes.
  rewrite (forEach_rebuild id); [|done|].
  - clear. induction attrsRaw as [|[k v] l IH]; [done|]. cbn [map fst snd]. by rewrite IH.
  - intros key v acc Hv. rewrite (get_lookup _ _ _ Hv).
    apply lookup_elem_of in Hv.
    rewrite Forall_forall in Hprim. specialize (Hprim _ Hv). simpl in Hprim.
    by destruct v.
Qed.

Lemma lookup_toComponentAttributes (attrsRaw : obj) k :
  Obj.lookup k (toComponentAttributes attrsRaw) =
    match Obj.lookup k attrsRaw with
    | Some v => if primitive v then Some v else None
    | None => None
    end.
Proof.
  unfold toComponentAttributes.
  rewrite (lookup_forEach_set
             (λ key, if primitive (get key attrsRaw) then Some (get key attrsRaw) else None)).
  2: { intros key acc. by destruct (get key attrsRaw). }
  unfold get. case_decide as Hin.
  - apply elem_of_keys in Hin as [v ->]. by destruct v.
  - apply not_elem_of_keys in Hin. by rewrite Hin.
Qed.

(** The selector the hook reads is the node's own, when that is a string. *)
Lemma get_component_toComponentAttributes (attrsRaw : obj) :
  get "component" (toComponentAttributes attrsRaw) =
    match Obj.lookup "component" attrsRaw with
    | Some v => if primitive v then v else VUndefined
    | None => VUndefined
    end.
Proof.
  unfold get. rewrite lookup_toComponentAttributes.
  destruct (Obj.lookup "component" attrsRaw) as [v|]; [|done].
  by destruct (primitive v).
Qed.

(** ** Component resolution *)

Lemma normalizedComponents_at_None options key :
  normalizedComponents_at options key = None ↔
  Obj.lookup key (normalizedComponents options) = None ∧ key ∉ Object_prototype_members.
Proof.
  unfold normalizedComponents_at.
  destruct (Obj.lookup key (normalizedComponents options)) as [config|].
  - split; [done | by intros [? _]].
  - case_bool_decide; split; try done. by intros [_ ?].
Qed.

(** What [render] does once a descriptor is selected. *)
Lemma render_resolved JSON_parse options view config log :
  selected_config options (toComponentAttributes (attributes view)) = Some config →
  render JSON_parse options (HostView view) log =
    match finalProps JSON_parse options config (toComponentAttributes (attributes view)) log with
    | (Returned props, log1) =>
        match createProviderWrapper options (createElement (component config) props)
                (componentName options (toComponentAttributes (attributes view))) log1 with
        | (Returned wrapped, log2) => (Returned (HostView (view_mounting view wrapped)), log2)
        | (Thrown e, log2) => (Thrown e, log2)
        end
    | (Thrown e, log1) => (Thrown e, log1)
    end.
Proof.
  unfold selected_config. intros Hsel. unfold render. cbn [hasViewProperties].
  cbv zeta. rewrite Hsel. unfold mbind, M_bind, wrapWithProviders.
  destruct (finalProps _ _ _ _ _) as [[props|e] log1]; [|done].
  destruct (createProviderWrapper _ _ _ _) as [[wrapped|e] log2]; [|done].
  unfold view_mounting, mret, M_ret. by destruct (_root view).
Qed.

(** C1 (as amended).  The render hook resolves the configured
    [defaultComponent] (or, when that is absent or empty, the first
    registered name) only when the node's component-selector attribute is
    absent, not a string, or empty; a non-empty selector is looked up as it
    is, registered or not.  When the resolved name names nothing (no
    registered descriptor and no member that the registry object inherits
    from [Object.prototype]) the render is a silent no-op: it returns the
    view as it was, logs nothing, mounts nothing and throws nothing.  When a
    descriptor is selected and neither the mapper nor the wrapper throws, the
    wrapped element is mounted. *)
Theorem render_resolves_or_does_nothing JSON_parse options view log :
  let attrs := toComponentAttributes (attributes view) in
  ((∀ name, Obj.lookup "component" (attributes view) = Some (VStr name) → name = "") →
     componentName options attrs = of_name (fallbackName options)) ∧
  (∀ name, Obj.lookup "component" (attributes view) = Some (VStr name) → name ≠ "" →
     componentName options attrs = VStr name) ∧
  (∀ d, defaultComponent options = Some d → d ≠ "" → fallbackName options = Some d) ∧
  ((∀ d, defaultComponent options = Some d → d = "") →
     fallbackName options = head (Obj.keys (components options))) ∧
  (selected_config options attrs = None ↔
     Obj.lookup (toPropertyKey (componentName options attrs)) (normalizedComponents options) = None
     ∧ toPropertyKey (componentName options attrs) ∉ Object_prototype_members) ∧
  (selected_config options attrs = None →
     render JSON_parse options (HostView view) log = (Returned (HostView view), log)) ∧
  (∀ config props log1 wrapped log2,
     selected_config options attrs = Some config →
     finalProps JSON_parse options config attrs log = (Returned props, log1) →
     createProviderWrapper options (createElement (component config) props)
       (componentName options attrs) log1 = (Returned wrapped, log2) →
     render JSON_parse options (HostView view) log =
       (Returned (HostView (view_mounting view wrapped)), log2)).
Proof.
  intros attrs. subst attrs. split_and!.
  - intros Hsel. unfold componentName. rewrite get_component_toComponentAttributes.
    destruct (Obj.lookup "component" (attributes view)) as [v|] eqn:Hv; [|done].
    destruct v; try done. cbn [primitive].
    rewrite (Hsel s eq_refl). by rewrite decide_True.
  - intros name Hv Hne. unfold componentName.
    rewrite get_component_toComponentAttributes, Hv. cbn [primitive].
    by rewrite decide_False.
  - intros d Hd Hne. unfold fallbackName. rewrite Hd. by rewrite decide_False.
  - intros Hd. unfold fallbackName.
    destruct (defaultComponent options) as [d|]; [|done].
    rewrite (Hd d eq_refl). by rewrite decide_True.
  - apply normalizedComponents_at_None.
  - unfold selected_config. intros Hsel. unfold render. cbn [hasViewProperties].
    cbv zeta. by rewrite Hsel.
  - intros config props log1 wrapped log2 Hsel Hprops Hwrap.
    by rewrite (render_resolved _ _ _ _ _ Hsel), Hprops, Hwrap.
Qed.

Lemma render_resolves_or_does_nothing_witness :
  mounted (render JSON_parse_sample Sample.hero_options (HostView Sample.plain_view) [])
    = Some (VElem (VFun "Hero") [("title", VStr "Hi")]) ∧
  render JSON_parse_sample Sample.hero_options (HostView Sample.ghost_view) []
    = (Returned (HostView Sample.ghost_view), []).
Proof.
  split.
  - destruct (render_resolves_or_does_nothing JSON_parse_sample Sample.hero_options
                Sample.plain_view []) as (_ & _ & _ & _ & _ & _ & Hmount).
    rewrite (Hmount (normalized (BareComponent (VFun "Hero")))
               [("title", VStr "Hi")] [] (VElem (VFun "Hero") [("title", VStr "Hi")]) [])
      by reflexivity.
    reflexivity.
  - destruct (render_resolves_or_does_nothing JSON_parse_sample Sample.hero_options
                Sample.ghost_view []) as (_ & _ & _ & _ & _ & Hnoop & _).
    apply Hnoop. reflexivity.
Defined.

(** C1, the claim as stated fails: with [Hero] registered and configured as
    the default, a node whose selector names the unregistered [Ghost] is not
    rendered as [Hero]; nothing is mounted. *)
Lemma unregistered_selector_does_not_fall_back :
  ¬ (Obj.lookup "Ghost" (normalizedComponents Sample.hero_options) = None →
     defaultComponent Sample.hero_options = Some "Hero" →
     ∃ props,
       mounted (render JSON_parse_sample Sample.hero_options
                  (HostView Sample.ghost_view) [])
         = Some (VElem (VFun "Hero") props)).
Proof.
  intros H. destruct (H eq_refl eq_refl) as [props Hmounted]. discriminate Hmounted.
Qed.

(** ** The wrapper mapper *)

Lemma lookup_wrapped_defaults (defaults : obj) k :
  Obj.lookup k
    (Obj.forEach (Obj.keys defaults) (λ key wrapped,
       match get key defaults with
       | VUndefined => wrapped
       | v => Obj.set key v wrapped
       end) Obj.empty) =
  match Obj.lookup k defaults with
  | Some VUndefined => None
  | found => found
  end.
Proof.
  rewrite (lookup_forEach_set
             (λ key, match get key defaults with VUndefined => None | v => Some v end)).
  2: { intros key acc. by destruct (get key defaults). }
  unfold get. case_decide as Hin.
  - apply elem_of_keys in Hin as [v ->]. by destruct v.
  - apply not_elem_of_keys in Hin. by rewrite Hin.
Qed.

Lemma createWrapperMapper_lookup wrapperKey (defaults attrs : obj) :
  ∃ merged,
    createWrapperMapper wrapperKey defaults attrs = [(wrapperKey, VObj merged)] ∧
    ∀ k, Obj.lookup k merged =
           match Obj.lookup k attrs with
           | Some v => if wrapper_keeps v then Some v else Obj.lookup k defaults
           | None => Obj.lookup k defaults
           end.
Proof.
  unfold createWrapperMapper. eexists. split; [reflexivity|].
  intros k. rewrite !lookup_assign.
  rewrite (lookup_forEach_set
             (λ key, match get key attrs with VUndefined | VNull => None | v => Some v end)).
  2: { intros key acc. by destruct (get key attrs). }
  rewrite lookup_wrapped_defaults. unfold get. cbn [Obj.lookup Obj.empty].
  case_decide as Hin.
  - apply elem_of_keys in Hin as [v ->].
    destruct v; cbn [wrapper_keeps]; try done;
      by destruct (Obj.lookup k defaults) as [[]|].
  - apply not_elem_of_keys in Hin. rewrite Hin.
    by destruct (Obj.lookup k defaults) as [[]|].
Qed.

(** C3 (as amended).  The wrapper mapper returns one property, the wrapper
    key, holding the defaults overlaid with the attributes: an attribute wins
    over the default whenever its value is neither [undefined] nor [null]
    (an empty string does win), and a key no attribute overrides keeps what
    the defaults hold for it.  In particular
    [wrapperMapper('uiComponent', {x: 1})({y: 2}) = {uiComponent: {x: 1, y: 2}}]
    and [wrapperMapper('uiComponent', {x: 1})({x: 2}) = {uiComponent: {x: 2}}]. *)
Theorem createWrapperMapper_merges_under_key :
  (∀ wrapperKey (defaults attrs : obj),
     ∃ merged,
       createWrapperMapper wrapperKey defaults attrs = [(wrapperKey, VObj merged)] ∧
       ∀ k, Obj.lookup k merged =
              match Obj.lookup k attrs with
              | Some v => if wrapper_keeps v then Some v else Obj.lookup k defaults
              | None => Obj.lookup k defaults
              end) ∧
  createWrapperMapper "uiComponent" [("x", VNum 1)] [("y", VNum 2)]
    = [("uiComponent", VObj [("x", VNum 1); ("y", VNum 2)])] ∧
  createWrapperMapper "uiComponent" [("x", VNum 1)] [("x", VNum 2)]
    = [("uiComponent", VObj [("x", VNum 2)])].
Proof.
  split; [apply createWrapperMapper_lookup|]. split; reflexivity.
Qed.

(** C3, the claim as stated fails: an empty-string attribute does override
    the default under the wrapper key. *)
Lemma createWrapperMapper_empty_string_overrides :
  ¬ (∀ merged,
       createWrapperMapper "uiComponent" [("x", VNum 1)] [("x", VStr "")]
         = [("uiComponent", VObj merged)] →
       Obj.lookup "x" merged = Some (VNum 1)).
Proof.
  intros H. specialize (H [("x", VStr "")] eq_refl). discriminate H.
Qed.

(** ** The default mapping path *)

Lemma fst_forEach {X S T : Type} (xs : list X) (body : X → S * T → S * T)
    (body' : X → S → S) (st : S * T) :
  (∀ x st, fst (body x st) = body' x (fst st)) →
  fst (Obj.forEach xs body st) = Obj.forEach xs body' (fst st).
Proof.
  intros Hbody. unfold Obj.forEach.
  revert st; induction xs as [|x xs IH]; intros st; cbn [fold_left]; [done|].
  by rewrite IH, Hbody.
Qed.

Section DefaultPath.

Variable JSON_parse : string → completion value.
Variable options : ReactComponentsPluginOptions.

Lemma passAttribute_fst attrs key (st : obj * console) :
  fst (passAttribute JSON_parse options attrs key st) =
    match passed_value JSON_parse options attrs key with
    | Some v => Obj.set key v (fst st)
    | None => fst st
    end.
Proof.
  destruct st as [rawProps log]. unfold passAttribute, passed_value.
  destruct (bool_decide (key ≠ "component") && bool_decide (key ≠ "data-gjs-type")
            && match get key attrs with
               | VUndefined | VNull | VStr "" => false
               | _ => true
               end); [|done].
  destruct (traitsMap options !! key) as [trait|]; [|done].
  destruct (get key attrs); try done.
  destruct (is_json trait); [|done].
  by destruct (JSON_parse s).
Qed.

Lemma passed_value_absent (attrs : obj) key :
  Obj.lookup key attrs = None → passed_value JSON_parse options attrs key = None.
Proof.
  intros Hnone. unfold passed_value, get. rewrite Hnone.
  by rewrite andb_false_r.
Qed.

Lemma lookup_seedDefaultProps config k :
  Obj.lookup k (seedDefaultProps config Obj.empty) = default_for config k.
Proof.
  unfold seedDefaultProps, default_for.
  destruct (defaultProps config) as [d|]; [|done].
  apply lookup_wrapped_defaults.
Qed.

(** What [rawProps] holds under a key: the value passed on from the
    attribute, else the default. *)
Lemma lookup_rawProps config attrs log k :
  Obj.lookup k (fst (rawProps JSON_parse options config attrs log)) =
    match passed_value JSON_parse options attrs k with
    | Some v => Some v
    | None => default_for config k
    end.
Proof.
  unfold rawProps.
  rewrite (fst_forEach _ _
             (λ key acc, match passed_value JSON_parse options attrs key with
                         | Some v => Obj.set key v acc
                         | None => acc
                         end)) by apply passAttribute_fst.
  rewrite (lookup_forEach_set (passed_value JSON_parse options attrs)) by done.
  cbn [fst]. rewrite lookup_seedDefaultProps.
  case_decide as Hin; [done|].
  apply not_elem_of_keys in Hin. by rewrite passed_value_absent.
Qed.

(** Without a mapper, [finalProps] returns [rawProps]. *)
Lemma finalProps_default config attrs log :
  mapProps config = None →
  finalProps JSON_parse options config attrs log =
    (Returned (fst (rawProps JSON_parse options config attrs log)),
     snd (rawProps JSON_parse options config attrs log)).
Proof.
  intros Hnone. unfold finalProps, mbind, M_bind. rewrite Hnone.
  by destruct (rawProps JSON_parse options config attrs log).
Qed.

(** With a mapper, [finalProps] is its answer on the attributes, on the
    console as the [rawProps] loops left it. *)
Lemma finalProps_mapped config attrs log f :
  mapProps config = Some f →
  finalProps JSON_parse options config attrs log =
    f attrs (snd (rawProps JSON_parse options config attrs log)).
Proof.
  intros Hsome. unfold finalProps, mbind, M_bind. rewrite Hsome.
  by destruct (rawProps JSON_parse options config attrs log).
Qed.

End DefaultPath.

(** C4.  In the default mapping path an attribute holding the empty string
    is treated as absent: under its key the mapped properties hold the
    descriptor's default (and nothing when there is none), never the empty
    string.  With defaults [{a: 1}] and attributes [{a: ''}] the mapped
    properties are [{a: 1}], as is [mergeDefaults({a: 1}, {a: ''})]. *)
Theorem empty_string_attribute_keeps_default :
  (∀ JSON_parse options config (attrs : obj) log k,
     mapProps config = None →
     Obj.lookup k attrs = Some (VStr "") →
     ∃ props log',
       finalProps JSON_parse options config attrs log = (Returned props, log') ∧
       Obj.lookup k props = default_for config k) ∧
  (∀ JSON_parse log,
     finalProps JSON_parse Sample.box_options Sample.with_default [("a", VStr "")] log
       = (Returned [("a", VNum 1)], log)) ∧
  mergeDefaults [("a", VNum 1)] [("a", VStr "")] = [("a", VNum 1)].
Proof.
  split; [|split; [intros; reflexivity | reflexivity]].
  intros JSON_parse options config attrs log k Hnone Hempty.
  eexists _, _. split; [by apply finalProps_default|].
  rewrite lookup_rawProps. unfold passed_value, get. rewrite Hempty.
  by rewrite andb_false_r.
Qed.

Lemma empty_string_attribute_keeps_default_witness :
  ∃ props log',
    finalProps JSON_parse_sample Sample.box_options Sample.with_default
      [("a", VStr "")] [] = (Returned props, log') ∧
    Obj.lookup "a" props = Some (VNum 1).
Proof.
  destruct empty_string_attribute_keeps_default as (Hkeep & _ & _).
  apply (Hkeep JSON_parse_sample Sample.box_options Sample.with_default
           [("a", VStr "")] [] "a"); reflexivity.
Defined.

(** ** The reserved keys *)

(** C2 (as amended).  In the default mapping path the attribute values
    under the two reserved keys are never passed on: under a reserved key the
    properties hold what the descriptor's [defaultProps] supply for it, and
    nothing when they supply none. *)
Theorem reserved_attributes_not_passed_on
    JSON_parse options config (attrs : obj) log k :
  mapProps config = None →
  k = "component" ∨ k = "data-gjs-type" →
  ∃ props log',
    finalProps JSON_parse options config attrs log = (Returned props, log') ∧
    Obj.lookup k props = default_for config k.
Proof.
  intros Hmap Hk.
  eexists _, _. split; [by apply finalProps_default|].
  rewrite lookup_rawProps. unfold passed_value.
  destruct Hk as [-> | ->]; reflexivity.
Qed.

Lemma reserved_attributes_not_passed_on_witness :
  ∃ props log',
    finalProps JSON_parse_sample Sample.box_options Sample.with_default
      (attributes Sample.card_view) [] = (Returned props, log') ∧
    Obj.lookup "component" props = None.
Proof.
  apply (reserved_attributes_not_passed_on JSON_parse_sample Sample.box_options
           Sample.with_default (attributes Sample.card_view) [] "component" eq_refl).
  by left.
Defined.

(** C2, the claim as stated fails twice.  A descriptor built by the JSON
    factory has a [mapProps] that passes every attribute on, so the node's
    [component] and [data-gjs-type] reach the component; and in the default
    path a reserved key that [defaultProps] uses is handed over too. *)
Lemma reserved_keys_reach_the_component :
  ¬ (∀ type props,
       mounted (render JSON_parse_sample Sample.card_options
                  (HostView Sample.card_view) []) = Some (VElem type props) →
       Obj.lookup "component" props = None ∧ Obj.lookup "data-gjs-type" props = None)
  ∧
  ¬ (∀ props log,
       finalProps JSON_parse_sample Sample.box_options Sample.preset_selector
         (attributes Sample.card_view) [] = (Returned props, log) →
       Obj.lookup "component" props = None).
Proof.
  split.
  - intros H. destruct (H _ _ eq_refl) as [Hc _]. discriminate Hc.
  - intros H. specialize (H _ _ eq_refl). discriminate H.
Qed.

(** ** The custom mapper *)

(** C5.  When the selected descriptor has a [mapProps], the properties
    handed to the component are what [mapProps] returns on the node's
    attributes, and when [mapProps] throws so does the render:
    [defaultProps] and the properties the default overlay has built are not
    part of the result.  (The attributes are the node's own when, as their
    type says, they hold primitive values; the overlay loops have run before
    the mapper, which starts on the console as they left it.) *)
Theorem mapProps_determines_props JSON_parse options view config f log :
  let attrs := toComponentAttributes (attributes view) in
  selected_config options attrs = Some config →
  mapProps config = Some f →
  (NoDup (Obj.keys (attributes view)) →
   Forall (λ kv, primitive kv.2 = true) (attributes view) →
   attrs = attributes view) ∧
  finalProps JSON_parse options config attrs log =
    f attrs (snd (rawProps JSON_parse options config attrs log)) ∧
  render JSON_parse options (HostView view) log =
    match f attrs (snd (rawProps JSON_parse options config attrs log)) with
    | (Returned props, log1) =>
        match createProviderWrapper options (createElement (component config) props)
                (componentName options attrs) log1 with
        | (Returned wrapped, log2) => (Returned (HostView (view_mounting view wrapped)), log2)
        | (Thrown e, log2) => (Thrown e, log2)
        end
    | (Thrown e, log1) => (Thrown e, log1)
    end.
Proof.
  intros attrs Hsel Hmap. subst attrs. split_and!.
  - apply toComponentAttributes_primitive.
  - by apply finalProps_mapped.
  - by rewrite (render_resolved _ _ _ _ _ Hsel), (finalProps_mapped _ _ _ _ _ _ Hmap).
Qed.

(** The wrapper factory's mapper: the component receives its result, in
    which the descriptor's own defaults play no part. *)
Lemma mapProps_determines_props_witness :
  mounted (render JSON_parse_sample Sample.wrapped_options (HostView Sample.card_view) [])
  = Some (VElem (VFun "Card")
            [("uiComponent",
              VObj [ ("x", VNum 1);
                     ("data-gjs-type", VStr "react-comp");
                     ("component", VStr "Card");
                     ("title", VStr "Hi") ])]).
Proof.
  destruct (mapProps_determines_props JSON_parse_sample Sample.wrapped_options
              Sample.card_view Sample.wrapped_card _ [] eq_refl eq_refl)
    as (_ & _ & Hrender).
  rewrite Hrender. reflexivity.
Defined.

(** ** The trait list exposed to the editor *)

Lemma fold_left_concat {X S Y : Type} (step : S → Y → S) (f : X → list Y) xs acc :
  fold_left (λ acc x, fold_left step (f x) acc) xs acc =
  fold_left step (concat (map f xs)) acc.
Proof.
  revert acc; induction xs as [|x xs IH]; intros acc; simpl; [done|].
  by rewrite fold_left_app, IH.
Qed.

Lemma fold_left_pointwise {X S : Type} (f g : S → X → S) xs acc :
  (∀ acc x, f acc x = g acc x) → fold_left f xs acc = fold_left g xs acc.
Proof.
  intros Hfg. revert acc; induction xs as [|x xs IH]; intros acc; simpl; [done|].
  by rewrite IH, Hfg.
Qed.

(** The nested loops of [baseTraits] are one loop over all the traits. *)
Lemma baseTraits_fold options :
  baseTraits options = fold_left push_new (all_traits options) [selector_trait options].
Proof.
  unfold baseTraits, all_traits, Obj.forEach.
  rewrite <- (fold_left_concat push_new).
  apply fold_left_pointwise. intros acc config.
  by destruct (traits config).
Qed.

Lemma find_app_named n (l1 l2 : list TraitDefinition) :
  find (named n) (l1 ++ l2) =
    match find (named n) l1 with
    | Some t => Some t
    | None => find (named n) l2
    end.
Proof.
  induction l1 as [|t l1 IH]; simpl; [done|]. by destruct (named n t).
Qed.

Lemma find_named_None n l : find (named n) l = None ↔ n ∉ map trait_name l.
Proof.
  induction l as [|t l IH]; simpl.
  - split; [intros _; apply not_elem_of_nil | done].
  - unfold named at 1. rewrite not_elem_of_cons. case_bool_decide as Hn.
    + split; [done | intros [? _]; congruence].
    + rewrite IH. split; [intros ?; split; [congruence | done] | by intros [_ ?]].
Qed.

Lemma push_new_named acc trait :
  push_new acc trait =
    match find (named (trait_name trait)) acc with
    | None => acc ++ [trait]
    | Some _ => acc
    end.
Proof. reflexivity. Qed.

(** For every name, the merged list holds what the traits in declaration
    order hold first. *)
Lemma find_fold_push_new n l acc :
  find (named n) (fold_left push_new l acc) = find (named n) (acc ++ l).
Proof.
  revert acc; induction l as [|t l IH]; intros acc; simpl.
  - by rewrite app_nil_r.
  - rewrite IH, push_new_named.
    destruct (find (named (trait_name t)) acc) as [u|] eqn:Hfind.
    + rewrite !find_app_named.
      destruct (find (named n) acc) eqn:Hn; [done|].
      simpl. unfold named at 2. case_bool_decide as Heq; [|done].
      subst n. congruence.
    + by rewrite <- app_assoc.
Qed.

Lemma NoDup_fold_push_new l acc :
  NoDup (map trait_name acc) → NoDup (map trait_name (fold_left push_new l acc)).
Proof.
  revert acc; induction l as [|t l IH]; intros acc Hnd; simpl; [done|].
  apply IH. rewrite push_new_named.
  destruct (find (named (trait_name t)) acc) eqn:Hfind; [done|].
  rewrite map_app. simpl. apply NoDup_app. split; [done|].
  split; [|apply NoDup_singleton].
  intros x Hx Hx'. apply list_elem_of_singleton in Hx'. subst x.
  by apply find_named_None in Hfind.
Qed.

Lemma prefix_fold_push_new l acc : ∃ rest, fold_left push_new l acc = acc ++ rest.
Proof.
  revert acc; induction l as [|t l IH]; intros acc; simpl.
  - exists []. by rewrite app_nil_r.
  - destruct (IH (push_new acc t)) as [rest ->]. rewrite push_new_named.
    destruct (find (named (trait_name t)) acc); [by eexists|].
    exists (t :: rest). by rewrite <- app_assoc.
Qed.

Lemma elem_of_fold_push_new t l acc :
  t ∈ fold_left push_new l acc → t ∈ acc ∨ t ∈ l.
Proof.
  revert acc; induction l as [|u l IH]; intros acc; simpl; [by left|].
  intros Hin. apply IH in Hin as [Hin|Hin]; [|right; by right].
  rewrite push_new_named in Hin.
  destruct (find (named (trait_name u)) acc); [by left|].
  apply elem_of_app in Hin as [?|Hin]; [by left|].
  apply list_elem_of_singleton in Hin as ->. right; by left.
Qed.

Lemma NoDup_baseTraits options : NoDup (map trait_name (baseTraits options)).
Proof.
  rewrite baseTraits_fold. apply NoDup_fold_push_new. simpl. apply NoDup_singleton.
Qed.

Lemma find_baseTraits options n :
  find (named n) (baseTraits options) =
    find (named n) (selector_trait options :: all_traits options).
Proof. rewrite baseTraits_fold. apply find_fold_push_new. Qed.

(** C9.  The trait list registered with the editor is [baseTraits]: it
    starts with the synthetic component-selector trait, a select over the
    registered component names; no name occurs twice in it; under every
    other name it holds the first-declared trait of that name across all
    registered descriptors, and it holds nothing but the selector and
    declared traits.  Two descriptors that both declare [title] yield one
    [title] entry, the first-declared one. *)
Theorem merged_traits_first_wins :
  (∀ options,
     default_traits_list (react_comp_defaults options) = baseTraits options ∧
     (∃ rest, baseTraits options = selector_trait options :: rest) ∧
     (NoDup (Obj.keys (components options)) →
      selector_trait options =
        TSelect "component" "Component"
          (map (λ name, (name, name)) (Obj.keys (components options))) None) ∧
     NoDup (map trait_name (baseTraits options)) ∧
     (∀ n, n ≠ "component" →
           find (named n) (baseTraits options) = first_declared options n) ∧
     (∀ t, t ∈ baseTraits options → t = selector_trait options ∨ t ∈ all_traits options)) ∧
  filter (named "title") (baseTraits Sample.two_titles) = [TText "title" "Heading" None].
Proof.
  split; [|reflexivity].
  intros options. split; [reflexivity|]. split.
  { rewrite baseTraits_fold.
    destruct (prefix_fold_push_new (all_traits options) [selector_trait options])
      as [rest ->]. by exists rest. }
  split.
  { intros Hnd. unfold selector_trait. by rewrite keys_normalizedComponents. }
  split; [apply NoDup_baseTraits|]. split.
  - intros n Hn. rewrite find_baseTraits. cbn [find]. unfold named at 1.
    cbn [trait_name selector_trait]. by rewrite bool_decide_eq_false_2.
  - intros t Hin. rewrite baseTraits_fold in Hin.
    apply elem_of_fold_push_new in Hin as [Hin|Hin]; [left|by right].
    by apply list_elem_of_singleton in Hin.
Qed.

Lemma merged_traits_first_wins_witness :
  find (named "title") (baseTraits Sample.two_titles) = first_declared Sample.two_titles "title"
  ∧ first_declared Sample.two_titles "title" = Some (TText "title" "Heading" None).
Proof.
  split; [|reflexivity].
  destruct merged_traits_first_wins as [Hall _].
  destruct (Hall Sample.two_titles) as (_ & _ & _ & _ & Hfind & _).
  apply Hfind. discriminate.
Defined.

(** ** The trait map and JSON decoding *)

Lemma traitsMap_fold_untouched (l : list TraitDefinition) (m : gmap string TraitDefinition) n :
  n ∉ map trait_name l →
  fold_left (λ acc trait, if decide (trait_name trait = "") then acc
                          else <[trait_name trait := trait]> acc) l m !! n = m !! n.
Proof.
  revert m; induction l as [|t l IH]; intros m Hn; simpl; [done|].
  simpl in Hn. apply not_elem_of_cons in Hn as [Hne Hn].
  rewrite IH by done. case_decide; [done|]. by rewrite lookup_insert_ne.
Qed.

Lemma traitsMap_fold_lookup (l : list TraitDefinition) (m : gmap string TraitDefinition) n :
  NoDup (map trait_name l) → n ≠ "" →
  fold_left (λ acc trait, if decide (trait_name trait = "") then acc
                          else <[trait_name trait := trait]> acc) l m !! n =
    match find (named n) l with
    | Some t => Some t
    | None => m !! n
    end.
Proof.
  intros Hnd Hn. revert m; induction l as [|t l IH]; intros m; simpl; [done|].
  simpl in Hnd. apply NoDup_cons in Hnd as [Hfresh Hnd].
  unfold named at 1. case_bool_decide as Heq.
  - subst n. rewrite traitsMap_fold_untouched by done.
    rewrite decide_False by done. by rewrite lookup_insert_eq.
  - rewrite IH by done. destruct (find (named n) l); [done|].
    case_decide; [done|]. by rewrite lookup_insert_ne.
Qed.

(** [traitsMap] holds, under a name, the first-declared trait of that name
    across all registered descriptors. *)
Lemma traitsMap_first_declared options n :
  n ≠ "" → n ≠ "component" → traitsMap options !! n = first_declared options n.
Proof.
  intros Hn Hc. unfold traitsMap, Obj.forEach.
  cbv beta.
  rewrite traitsMap_fold_lookup by (apply NoDup_baseTraits || done).
  rewrite find_baseTraits. cbn [find]. unfold named at 1. cbn [trait_name selector_trait].
  rewrite bool_decide_eq_false_2 by done.
  unfold first_declared. by destruct (find (named n) (all_traits options)).
Qed.

Lemma passed_value_string JSON_parse options (attrs : obj) key s :
  key ≠ "component" → key ≠ "data-gjs-type" →
  Obj.lookup key attrs = Some (VStr s) → s ≠ "" →
  passed_value JSON_parse options attrs key =
    Some match traitsMap options !! key with
         | Some trait => if is_json trait then decoded JSON_parse s else VStr s
         | None => VStr s
         end.
Proof.
  intros Hc Ht Hs Hne. unfold passed_value, get, decoded. rewrite Hs.
  rewrite !bool_decide_eq_true_2 by done.
  destruct s as [|c s]; [done|]. cbn [andb].
  destruct (traitsMap options !! key) as [trait|]; [|done].
  destruct (is_json trait); [|done].
  by destruct (JSON_parse (String c s)).
Qed.

(** C10.  In the default mapping path, whether a textual attribute value is
    JSON-decoded is decided by the first-declared trait of the attribute's
    name across all registered descriptors: the value is decoded exactly when
    that trait is a JSON trait, whatever descriptor is selected and whatever
    traits that descriptor declares itself.  (Attribute names are not empty,
    and the two reserved keys are never passed at all.) *)
Theorem json_decoding_follows_first_declared_trait
    JSON_parse options config (attrs : obj) log key s :
  mapProps config = None →
  key ≠ "" → key ≠ "component" → key ≠ "data-gjs-type" →
  Obj.lookup key attrs = Some (VStr s) → s ≠ "" →
  ∃ props log',
    finalProps JSON_parse options config attrs log = (Returned props, log') ∧
    Obj.lookup key props =
      Some (if declared_json options key then decoded JSON_parse s else VStr s).
Proof.
  intros Hmap Hkey Hc Ht Hs Hne.
  eexists _, _. split; [by apply finalProps_default|].
  rewrite lookup_rawProps, (passed_value_string _ _ _ _ s) by done.
  rewrite traitsMap_first_declared by done.
  unfold declared_json. by destruct (first_declared options key).
Qed.

(** [Note] declares [data] as text, yet its value is decoded when [Table],
    registered first, declares [data] as JSON; and [Table]'s own JSON trait
    does not make it decoded when [Note]'s text trait was declared first. *)
Lemma json_decoding_follows_first_declared_trait_witness :
  (∃ props log',
     finalProps JSON_parse_sample Sample.json_first Sample.note
       [("component", VStr "Note"); ("data", VStr "[1]")] [] = (Returned props, log') ∧
     Obj.lookup "data" props = Some (VArr [VNum 1])) ∧
  (∃ props log',
     finalProps JSON_parse_sample Sample.text_first Sample.table
       [("component", VStr "Table"); ("data", VStr "[1]")] [] = (Returned props, log') ∧
     Obj.lookup "data" props = Some (VStr "[1]")).
Proof.
  split.
  - apply (json_decoding_follows_first_declared_trait JSON_parse_sample
             Sample.json_first Sample.note
             [("component", VStr "Note"); ("data", VStr "[1]")] [] "data" "[1]");
      (reflexivity || discriminate).
  - apply (json_decoding_follows_first_declared_trait JSON_parse_sample
             Sample.text_first Sample.table
             [("component", VStr "Table"); ("data", VStr "[1]")] [] "data" "[1]");
      (reflexivity || discriminate).
Defined.

(** C8.  On a text that is no JSON, [parseJsonTrait] returns the text
    itself after one warning and does not throw; it throws on no value at
    all.  The render hook's own decoding of a JSON trait does the same: the
    text is passed on unchanged under its key, after one warning. *)
Theorem malformed_json_is_passed_through :
  (∀ JSON_parse s e log,
     JSON_parse s = Thrown e →
     parseJsonTrait JSON_parse (VStr s) log =
       (Returned (VStr s), log ++ [[VStr "Failed to parse JSON trait:"; VStr s]])) ∧
  (∀ JSON_parse v log,
     ∃ r log', parseJsonTrait JSON_parse v log = (Returned r, log')) ∧
  (∀ JSON_parse options (attrs : obj) key s e trait rawProps log,
     JSON_parse s = Thrown e →
     key ≠ "component" → key ≠ "data-gjs-type" →
     Obj.lookup key attrs = Some (VStr s) → s ≠ "" →
     traitsMap options !! key = Some trait → is_json trait = true →
     passAttribute JSON_parse options attrs key (rawProps, log) =
       (Obj.set key (VStr s) rawProps,
        log ++ [[VStr ("Failed to parse JSON trait " ++ key ++ ":"); VStr s]])) ∧
  (∀ JSON_parse options config (attrs : obj) key s e trait log,
     JSON_parse s = Thrown e →
     mapProps config = None →
     key ≠ "component" → key ≠ "data-gjs-type" →
     Obj.lookup key attrs = Some (VStr s) → s ≠ "" →
     traitsMap options !! key = Some trait → is_json trait = true →
     ∃ props log',
       finalProps JSON_parse options config attrs log = (Returned props, log') ∧
       Obj.lookup key props = Some (VStr s)).
Proof.
  split_and!.
  - intros JSON_parse s e log Hthrow. unfold parseJsonTrait. by rewrite Hthrow.
  - intros JSON_parse v log. unfold parseJsonTrait.
    destruct v; try (by eexists _, _).
    destruct (JSON_parse s); by eexists _, _.
  - intros JSON_parse options attrs key s e trait rawProps log
      Hthrow Hc Ht Hs Hne Htrait Hjson.
    unfold passAttribute, get. rewrite Hs, Htrait, Hjson, Hthrow.
    rewrite !bool_decide_eq_true_2 by done.
    by destruct s.
  - intros JSON_parse options config attrs key s e trait log
      Hthrow Hmap Hc Ht Hs Hne Htrait Hjson.
    eexists _, _. split; [by apply finalProps_default|].
    rewrite lookup_rawProps, (passed_value_string _ _ _ _ s) by done.
    rewrite Htrait, Hjson. unfold decoded. by rewrite Hthrow.
Qed.

Lemma malformed_json_is_passed_through_witness :
  parseJsonTrait JSON_parse_sample (VStr "{oops") [] =
    (Returned (VStr "{oops"), [[VStr "Failed to parse JSON trait:"; VStr "{oops"]]) ∧
  passAttribute JSON_parse_sample Sample.json_first [("data", VStr "{oops")] "data" ([], []) =
    ([("data", VStr "{oops")],
     [[VStr "Failed to parse JSON trait data:"; VStr "{oops"]]).
Proof.
  destruct malformed_json_is_passed_through as (Hparse & _ & Hpass & _).
  split.
  - apply (Hparse JSON_parse_sample "{oops" (VStr "SyntaxError") []). reflexivity.
  - apply (Hpass JSON_parse_sample Sample.json_first [("data", VStr "{oops")] "data"
             "{oops" (VStr "SyntaxError") (TJson "data" "Data" None) [] []);
      (reflexivity || discriminate).
Defined.

(** ** Provider composition *)

Lemma reduceRight_cons {X S : Type} (f : S → X → S) init x xs :
  reduceRight f init (x :: xs) = f (reduceRight f init xs) x.
Proof. unfold reduceRight. simpl. by rewrite fold_left_app. Qed.

(** The fold from the right builds the nesting from the element outwards. *)
Lemma reduceRight_nested providers element :
  reduceRight (λ acc providerConfig,
    let props := with_children (provider_props providerConfig) acc in
    createElement (provider_component providerConfig) props) element providers
  = nested providers element.
Proof.
  induction providers as [|outer inner IH]; [done|].
  rewrite reduceRight_cons, IH. reflexivity.
Qed.

Lemma nested_snoc init last element :
  nested (init ++ [last]) element =
  nested init (VElem (provider_component last)
                     (with_children (provider_props last) element)).
Proof. induction init as [|p init IH]; simpl; [done|]. by rewrite IH. Qed.

Lemma get_children props children : get "children" (with_children props children) = children.
Proof.
  unfold get, with_children.
  destruct props as [props|]; [|done]. rewrite lookup_set. by rewrite decide_True.
Qed.

(** C6.  With no custom wrapper and a non-empty provider list, the composed
    wrapper nests the list from the right: the last config wraps the element
    directly and the first config is outermost.  For [[A, B]] the result is
    [A(children = B(children = E))]. *)
Theorem providers_nest_first_outermost :
  (∀ options p ps element name log,
     wrapComponent options = None → providers options = Some (p :: ps) →
     createProviderWrapper options element name log
       = (Returned (nested (p :: ps) element), log)) ∧
  (∀ init last element,
     nested (init ++ [last]) element =
     nested init (VElem (provider_component last)
                        (with_children (provider_props last) element))) ∧
  (∀ options A B E name log,
     wrapComponent options = None → providers options = Some [A; B] →
     ∃ propsA propsB,
       createProviderWrapper options E name log
         = (Returned (VElem (provider_component A) propsA), log) ∧
       get "children" propsA = VElem (provider_component B) propsB ∧
       get "children" propsB = E).
Proof.
  split_and!.
  - intros options p ps element name log Hwrap Hps.
    unfold createProviderWrapper. rewrite Hwrap, Hps.
    unfold mret, M_ret. by rewrite reduceRight_nested.
  - apply nested_snoc.
  - intros options A B E name log Hwrap Hps.
    unfold createProviderWrapper. rewrite Hwrap, Hps.
    unfold mret, M_ret. rewrite reduceRight_nested. cbn [nested].
    eexists _, _. split; [reflexivity|]. by rewrite !get_children.
Qed.

Lemma providers_nest_first_outermost_witness :
  createProviderWrapper Sample.provider_options (VElem (VFun "Hero") []) (VStr "Hero") []
  = (Returned
       (VElem (VFun "A")
          [ ("store", VNum 7);
            ("children",
             VElem (VFun "B") [("children", VElem (VFun "Hero") [])]) ]), []).
Proof.
  destruct providers_nest_first_outermost as (Hnest & _ & _).
  apply (Hnest Sample.provider_options Sample.A [Sample.B]); reflexivity.
Defined.

(** C7.  A configuration selects one wrapping strategy, by priority: the
    custom [wrapComponent] when supplied, else the [providers] list when it
    is not empty, else the single [Provider] with its [providerProps], else
    the identity.  The composed wrapper is that strategy, it depends on the
    configuration alone, and every render applies it to the element it has
    created, whatever the node's attributes. *)
Theorem one_wrapping_strategy_by_priority :
  (∀ options element name,
     createProviderWrapper options element name
       = wrap_by (selected_strategy options) element name) ∧
  (∀ options wrap,
     wrapComponent options = Some wrap →
     selected_strategy options = UseCustomWrapper wrap) ∧
  (∀ options p ps,
     wrapComponent options = None → providers options = Some (p :: ps) →
     selected_strategy options = UseProviderList (p :: ps)) ∧
  (∀ options P,
     wrapComponent options = None →
     providers options = None ∨ providers options = Some [] →
     Provider options = Some P →
     selected_strategy options = UseSingleProvider P (providerProps options)) ∧
  (∀ options,
     wrapComponent options = None →
     providers options = None ∨ providers options = Some [] →
     Provider options = None →
     selected_strategy options = UseIdentity) ∧
  (∀ JSON_parse options view config props log log1,
     selected_config options (toComponentAttributes (attributes view)) = Some config →
     finalProps JSON_parse options config (toComponentAttributes (attributes view)) log
       = (Returned props, log1) →
     render JSON_parse options (HostView view) log =
       match wrap_by (selected_strategy options)
               (createElement (component config) props)
               (componentName options (toComponentAttributes (attributes view))) log1 with
       | (Returned wrapped, log2) => (Returned (HostView (view_mounting view wrapped)), log2)
       | (Thrown e, log2) => (Thrown e, log2)
       end).
Proof.
  assert (∀ options element name,
            createProviderWrapper options element name
              = wrap_by (selected_strategy options) element name) as Hsel.
  { intros options element name. unfold createProviderWrapper, selected_strategy.
    destruct (wrapComponent options) as [wrap|]; [done|].
    destruct (providers options) as [[|p ps]|].
    - by destruct (Provider options).
    - cbn [wrap_by]. by rewrite reduceRight_nested.
    - by destruct (Provider options). }
  split_and!; [exact Hsel | ..].
  - intros options wrap Hwrap. unfold selected_strategy. by rewrite Hwrap.
  - intros options p ps Hwrap Hps. unfold selected_strategy. by rewrite Hwrap, Hps.
  - intros options P Hwrap Hps HP. unfold selected_strategy. rewrite Hwrap, HP.
    by destruct Hps as [-> | ->].
  - intros options Hwrap Hps HP. unfold selected_strategy. rewrite Hwrap, HP.
    by destruct Hps as [-> | ->].
  - intros JSON_parse options view config props log log1 Hconfig Hprops.
    by rewrite (render_resolved _ _ _ _ _ Hconfig), Hprops, Hsel.
Qed.

Lemma one_wrapping_strategy_by_priority_witness :
  selected_strategy Sample.provider_options = UseProviderList [Sample.A; Sample.B] ∧
  selected_strategy Sample.hero_options = UseIdentity.
Proof.
  destruct one_wrapping_strategy_by_priority as (_ & _ & Hlist & _ & Hid & _).
  split.
  - apply Hlist; reflexivity.
  - apply Hid; [reflexivity | by left | reflexivity].
Defined.

(** * Further properties of the code *)

(** ** The registry *)

Lemma registry_lookup_aux options name :
  Obj.lookup name (normalizedComponents options)
    = normalized <$> Obj.lookup name (components options).
Proof.
  unfold normalizedComponents.
  rewrite (lookup_forEach_set (λ key, normalized <$> Obj.lookup key (components options))).
  2: { intros key acc. by destruct (Obj.lookup key (components options)) as [[]|]. }
  case_decide as Hin.
  - apply elem_of_keys in Hin as [r ->]. done.
  - apply not_elem_of_keys in Hin. by rewrite Hin.
Qed.

Lemma keys_set {A : Type} k (v : A) (o : Obj.t A) :
  Obj.keys (Obj.set k v o) =
    if decide (k ∈ Obj.keys o) then Obj.keys o else Obj.keys o ++ [k].
Proof.
  unfold Obj.keys. induction o as [|[k0 v0] o IH]; cbn [Obj.set map fst].
  - destruct (decide (k ∈ [])) as [Hin|_]; [by apply elem_of_nil in Hin | done].
  - destruct (decide (k = k0)) as [->|Hne]; cbn [map fst].
    + rewrite decide_True; [done | by left].
    + rewrite IH. destruct (decide (k ∈ map fst o)) as [Hin|Hnin].
      * rewrite decide_True; [done | by right].
      * rewrite decide_False; [done|]. rewrite elem_of_cons. by intros [?|?].
Qed.

Lemma NoDup_keys_set {A : Type} k (v : A) (o : Obj.t A) :
  NoDup (Obj.keys o) → NoDup (Obj.keys (Obj.set k v o)).
Proof.
  intros Hnd. rewrite keys_set. case_decide as Hin; [done|].
  apply NoDup_app. split; [done|]. split; [|apply NoDup_singleton].
  intros x Hx Hx'. apply list_elem_of_singleton in Hx'. by subst x.
Qed.

(** What holds of the state before a loop and is kept by every turn holds
    after it. *)
Lemma forEach_invariant {X S : Type} (P : S → Prop) (xs : list X) body (s : S) :
  P s → (∀ x s, P s → P (body x s)) → P (Obj.forEach xs body s).
Proof.
  intros Hs Hbody. unfold Obj.forEach.
  revert s Hs; induction xs as [|x xs IH]; intros s Hs; cbn [fold_left]; [done|].
  apply IH. by apply Hbody.
Qed.

(** X1.  Under every name the normalized registry holds the normalized
    descriptor of what the caller registered under that name, and nothing
    under a name the caller did not register: a bare component or element
    gets the three default text traits, no defaults and no mapper, a config
    is kept as it is.  The registry's names are distinct, and they are the
    caller's names in the caller's order when those are distinct. *)
Theorem registry_holds_what_was_registered options :
  (∀ name, Obj.lookup name (normalizedComponents options)
             = normalized <$> Obj.lookup name (components options)) ∧
  NoDup (Obj.keys (normalizedComponents options)) ∧
  (NoDup (Obj.keys (components options)) →
   Obj.keys (normalizedComponents options) = Obj.keys (components options)).
Proof.
  split_and!.
  - apply registry_lookup_aux.
  - unfold normalizedComponents.
    apply (forEach_invariant (λ o : Obj.t ComponentConfig, NoDup (Obj.keys o))).
    + apply NoDup_nil_2.
    + intros key acc Hacc.
      destruct (Obj.lookup key (components options)) as [[]|];
        try done; by apply NoDup_keys_set.
  - apply keys_normalizedComponents.
Qed.

Lemma registry_holds_what_was_registered_witness :
  Obj.keys (normalizedComponents Sample.two_titles) = ["Hero"; "Card"].
Proof.
  destruct (registry_holds_what_was_registered Sample.two_titles) as (_ & _ & Hkeys).
  rewrite Hkeys; [reflexivity|].
  apply NoDup_cons. split; [|apply NoDup_singleton].
  rewrite list_elem_of_singleton. discriminate.
Defined.

Lemma componentName_without_selector options (attrsRaw : obj) :
  (∀ name, Obj.lookup "component" attrsRaw = Some (VStr name) → name = "") →
  componentName options (toComponentAttributes attrsRaw) = of_name (fallbackName options).
Proof.
  intros Hsel. unfold componentName. rewrite get_component_toComponentAttributes.
  destruct (Obj.lookup "component" attrsRaw) as [v|] eqn:Hv; [|done].
  destruct v; try done. cbn [primitive].
  rewrite (Hsel s eq_refl). by rewrite decide_True.
Qed.

Lemma componentName_with_selector options (attrsRaw : obj) name :
  Obj.lookup "component" attrsRaw = Some (VStr name) → name ≠ "" →
  componentName options (toComponentAttributes attrsRaw) = VStr name.
Proof.
  intros Hv Hne. unfold componentName.
  rewrite get_component_toComponentAttributes, Hv. cbn [primitive].
  by rewrite decide_False.
Qed.

Lemma render_unselected JSON_parse options view log :
  selected_config options (toComponentAttributes (attributes view)) = None →
  render JSON_parse options (HostView view) log = (Returned (HostView view), log).
Proof.
  unfold selected_config. intros Hsel. unfold render. cbn [hasViewProperties].
  cbv zeta. by rewrite Hsel.
Qed.

Lemma selected_config_registered options attrs name r :
  componentName options attrs = VStr name →
  Obj.lookup name (components options) = Some r →
  selected_config options attrs = Some (normalized r).
Proof.
  intros Hname Hr. unfold selected_config, normalizedComponents_at.
  rewrite Hname. cbn [toPropertyKey].
  by rewrite registry_lookup_aux, Hr.
Qed.

(** X2.  A node that carries the default attributes of the [react-comp]
    type renders the fallback component, whenever that name is registered:
    the selector written into the defaults is the fallback name itself. *)
Theorem fresh_node_selects_fallback options name r :
  fallbackName options = Some name →
  Obj.lookup name (components options) = Some r →
  selected_config options
    (toComponentAttributes (default_attributes (react_comp_defaults options)))
  = Some (normalized r).
Proof.
  intros Hfb Hr. apply (selected_config_registered _ _ name); [|done].
  cbn [react_comp_defaults default_attributes]. rewrite Hfb. cbn [of_name].
  destruct (decide (name = "")) as [->|Hne].
  - rewrite componentName_without_selector; [by rewrite Hfb|].
    intros name. cbn. by intros [= <-].
  - by apply componentName_with_selector.
Qed.

Lemma fresh_node_selects_fallback_witness :
  selected_config Sample.two_titles
    (toComponentAttributes (default_attributes (react_comp_defaults Sample.two_titles)))
  = Some {| component := VFun "Hero"; traits := Some [TText "title" "Heading" None];
            defaultProps := None; mapProps := None |}.
Proof.
  apply (fresh_node_selects_fallback Sample.two_titles "Hero" _ eq_refl eq_refl).
Defined.

(** X3.  A configured [defaultComponent] that is not registered is not
    replaced by the first registered name: a node without a selector then
    renders nothing, whatever else is registered. *)
Theorem unregistered_default_renders_nothing JSON_parse options view log d :
  defaultComponent options = Some d → d ≠ "" →
  Obj.lookup d (components options) = None →
  d ∉ Object_prototype_members →
  (∀ name, Obj.lookup "component" (attributes view) = Some (VStr name) → name = "") →
  render JSON_parse options (HostView view) log = (Returned (HostView view), log).
Proof.
  intros Hd Hne Hunreg Hproto Hsel. apply render_unselected.
  unfold selected_config. rewrite componentName_without_selector by done.
  unfold fallbackName. rewrite Hd, decide_False by done. cbn [of_name toPropertyKey].
  apply normalizedComponents_at_None. split; [|done].
  by rewrite registry_lookup_aux, Hunreg.
Qed.

(** X5.  A selector that names a member every object inherits from
    [Object.prototype] (such as [constructor]) and no registered component
    does not take the no-op path: the hook builds the properties from the
    attributes alone and creates an element whose type is [undefined]. *)
Theorem inherited_name_is_rendered JSON_parse options view key log :
  Obj.lookup "component" (attributes view) = Some (VStr key) →
  key ∈ Object_prototype_members →
  Obj.lookup key (components options) = None →
  let attrs := toComponentAttributes (attributes view) in
  selected_config options attrs = Some inherited_member ∧
  render JSON_parse options (HostView view) log =
    match rawProps JSON_parse options inherited_member attrs log with
    | (props, log1) =>
        match createProviderWrapper options (createElement VUndefined props)
                (VStr key) log1 with
        | (Returned wrapped, log2) => (Returned (HostView (view_mounting view wrapped)), log2)
        | (Thrown e, log2) => (Thrown e, log2)
        end
    end.
Proof.
  intros Hsel Hin Hunreg attrs. subst attrs.
  assert (key ≠ "") as Hne.
  { intros ->. revert Hin. unfold Object_prototype_members.
    rewrite !elem_of_cons, elem_of_nil. intros H. repeat destruct H as [H|H]; done. }
  assert (selected_config options (toComponentAttributes (attributes view))
          = Some inherited_member) as Hcfg.
  { unfold selected_config, normalizedComponents_at.
    rewrite (componentName_with_selector _ _ key) by done. cbn [toPropertyKey].
    rewrite registry_lookup_aux, Hunreg. cbn [fmap option_fmap option_map].
    by rewrite bool_decide_eq_true_2. }
  split; [done|].
  rewrite (render_resolved _ _ _ _ _ Hcfg), finalProps_default by done.
  rewrite (componentName_with_selector _ _ key) by done.
  by destruct (rawProps _ _ _ _ _).
Qed.

Lemma unregistered_default_renders_nothing_witness :
  render JSON_parse_sample More.typo_options (HostView Sample.plain_view) []
  = (Returned (HostView Sample.plain_view), []).
Proof.
  apply (unregistered_default_renders_nothing JSON_parse_sample More.typo_options
           Sample.plain_view [] "Heroo" eq_refl); [discriminate | reflexivity | | ].
  - unfold Object_prototype_members. rewrite !elem_of_cons, elem_of_nil.
    intros H. repeat destruct H as [H|H]; discriminate H || done.
  - intros name. cbn. discriminate.
Defined.

Lemma inherited_name_is_rendered_witness :
  mounted (render JSON_parse_sample Sample.hero_options (HostView More.constructor_view) [])
  = Some (VElem VUndefined [("title", VStr "Hi")]).
Proof.
  destruct (inherited_name_is_rendered JSON_parse_sample Sample.hero_options
              More.constructor_view "constructor" [] eq_refl) as [_ Hrender].
  - by left.
  - reflexivity.
  - rewrite Hrender. reflexivity.
Defined.

(** ** The attributes kept for mapping *)

Lemma Forall_set {A : Type} (P : string * A → Prop) k (v : A) (o : Obj.t A) :
  P (k, v) → Forall P o → Forall P (Obj.set k v o).
Proof.
  intros Hv. induction 1 as [|[k0 v0] o H0 Ho IH]; cbn [Obj.set].
  - by apply Forall_cons.
  - case_decide; apply Forall_cons; by split.
Qed.

(** X4.  Of a node's attributes the hook keeps, under the same keys, those
    that hold a string, a number, a boolean, [undefined] or [null]; an
    attribute that holds anything else (an object, an array, a function)
    reaches neither the default mapping nor a custom mapper.  What is kept is
    an object with distinct keys, and converting it again changes nothing. *)
Theorem kept_attributes_are_primitive (attrsRaw : obj) :
  (∀ k, Obj.lookup k (toComponentAttributes attrsRaw) =
          match Obj.lookup k attrsRaw with
          | Some v => if primitive v then Some v else None
          | None => None
          end) ∧
  Forall (λ kv, primitive kv.2 = true) (toComponentAttributes attrsRaw) ∧
  NoDup (Obj.keys (toComponentAttributes attrsRaw)) ∧
  toComponentAttributes (toComponentAttributes attrsRaw) = toComponentAttributes attrsRaw.
Proof.
  assert (Forall (λ kv : string * value, primitive kv.2 = true)
            (toComponentAttributes attrsRaw)) as Hprim.
  { unfold toComponentAttributes.
    apply (forEach_invariant (λ o : obj, Forall (λ kv, primitive kv.2 = true) o)).
    - apply Forall_nil_2.
    - intros key acc Hacc.
      destruct (get key attrsRaw) eqn:Hv; try done; by apply Forall_set. }
  assert (NoDup (Obj.keys (toComponentAttributes attrsRaw))) as Hnd.
  { unfold toComponentAttributes.
    apply (forEach_invariant (λ o : obj, NoDup (Obj.keys o))).
    - apply NoDup_nil_2.
    - intros key acc Hacc.
      destruct (get key attrsRaw); try done; by apply NoDup_keys_set. }
  split_and!; [apply lookup_toComponentAttributes | done | done |].
  by apply toComponentAttributes_primitive.
Qed.

(** ** The default mapping path, key by key *)

(** X6.  Without a custom mapper the properties are, key by key: the
    descriptor's default under a reserved key and under a key whose
    attribute is absent, [undefined], [null] or the empty string; the decoded
    value under a key whose attribute is a non-empty string and whose name
    the trait map marks as JSON; the attribute's value itself in every other
    case, so a number or a boolean is never decoded and always overrides the
    default. *)
Theorem default_mapping_key_by_key JSON_parse options config (attrs : obj) log :
  mapProps config = None →
  ∃ props log',
    finalProps JSON_parse options config attrs log = (Returned props, log') ∧
    ∀ k, Obj.lookup k props =
           if bool_decide (k = "component" ∨ k = "data-gjs-type")
           then default_for config k
           else match Obj.lookup k attrs with
                | None | Some VUndefined | Some VNull | Some (VStr "") =>
                    default_for config k
                | Some (VStr s) =>
                    Some match traitsMap options !! k with
                         | Some trait => if is_json trait then decoded JSON_parse s else VStr s
                         | None => VStr s
                         end
                | Some v => Some v
                end.
Proof.
  intros Hmap. eexists _, _. split; [by apply finalProps_default|].
  intros k. rewrite lookup_rawProps.
  case_bool_decide as Hres.
  - unfold passed_value. by destruct Hres as [-> | ->].
  - assert (k ≠ "component" ∧ k ≠ "data-gjs-type") as [Hc Ht] by (split; intros ->; auto).
    destruct (Obj.lookup k attrs) as [v|] eqn:Hv.
    2: { by rewrite passed_value_absent. }
    destruct v as [| |b|n|s|fields|items|id|result|type props];
      try (unfold passed_value, get; rewrite Hv, !bool_decide_eq_true_2 by done;
           cbn [andb]; by destruct (traitsMap options !! k)).
    destruct (decide (s = "")) as [->|Hne].
    + unfold passed_value, get. rewrite Hv. by rewrite andb_false_r.
    + rewrite (passed_value_string _ _ _ _ s) by done. by destruct s.
Qed.

Lemma default_mapping_key_by_key_witness :
  ∃ props log',
    finalProps JSON_parse_sample Sample.json_first Sample.with_default
      [("a", VNull); ("data", VNum 3); ("component", VStr "Table")] []
      = (Returned props, log') ∧
    Obj.lookup "a" props = Some (VNum 1) ∧
    Obj.lookup "data" props = Some (VNum 3) ∧
    Obj.lookup "component" props = None.
Proof.
  destruct (default_mapping_key_by_key JSON_parse_sample Sample.json_first
              Sample.with_default
              [("a", VNull); ("data", VNum 3); ("component", VStr "Table")] [] eq_refl)
    as (props & log' & Hprops & Hlookup).
  exists props, log'. split; [exact Hprops|].
  rewrite !Hlookup. split_and!; reflexivity.
Defined.

(** ** What the overlay logs *)

Lemma get_VStr_lookup (attrs : obj) key s :
  get key attrs = VStr s → Obj.lookup key attrs = Some (VStr s).
Proof. unfold get. destruct (Obj.lookup key attrs); [by intros -> | done]. Qed.

(** X7.  The overlay of the attributes logs nothing unless a JSON trait
    fails to decode: when every textual attribute under a JSON-typed name
    decodes, the console is left as it was. *)
Theorem overlay_logs_only_decode_failures JSON_parse options config (attrs : obj) log :
  (∀ k s trait,
     Obj.lookup k attrs = Some (VStr s) →
     traitsMap options !! k = Some trait → is_json trait = true →
     ∃ v, JSON_parse s = Returned v) →
  snd (rawProps JSON_parse options config attrs log) = log.
Proof.
  intros Hok. unfold rawProps.
  apply (forEach_invariant (λ st : obj * console, snd st = log)); [done|].
  intros key [acc log0] Hlog. cbn [snd] in Hlog. subst log0. unfold passAttribute.
  destruct (bool_decide (key ≠ "component") && bool_decide (key ≠ "data-gjs-type")
            && match get key attrs with
               | VUndefined | VNull | VStr "" => false
               | _ => true
               end); [|done].
  destruct (traitsMap options !! key) as [trait|] eqn:Htrait; [|done].
  destruct (get key attrs) eqn:Hv; try done.
  destruct (is_json trait) eqn:Hjson; [|done].
  apply get_VStr_lookup in Hv.
  by destruct (Hok key s trait Hv Htrait Hjson) as [v ->].
Qed.

Lemma overlay_logs_only_decode_failures_witness :
  snd (rawProps JSON_parse_sample Sample.json_first Sample.note
         [("data", VStr "[1]"); ("title", VStr "{oops")] []) = [].
Proof.
  apply (overlay_logs_only_decode_failures JSON_parse_sample Sample.json_first).
  intros k s trait. cbn [Obj.lookup].
  destruct (decide (k = "data")) as [->|Hk].
  - intros [= <-] _ _. by eexists.
  - destruct (decide (k = "title")) as [->|Hk']; [|done].
    intros _. vm_compute. discriminate.
Defined.

Lemma passAttribute_log_mono JSON_parse options attrs key (st : obj * console) w :
  w ∈ snd st → w ∈ snd (passAttribute JSON_parse options attrs key st).
Proof.
  destruct st as [acc log]. cbn [snd]. intros Hw. unfold passAttribute.
  destruct (bool_decide (key ≠ "component") && bool_decide (key ≠ "data-gjs-type")
            && match get key attrs with
               | VUndefined | VNull | VStr "" => false
               | _ => true
               end); [|done].
  destruct (traitsMap options !! key) as [trait|]; [|done].
  destruct (get key attrs); try done.
  destruct (is_json trait); [|done].
  destruct (JSON_parse s); [done|].
  cbn [snd]. unfold warn. apply elem_of_app. by left.
Qed.

Lemma forEach_passAttribute_warns JSON_parse options (attrs : obj) ks key s e trait
    (st : obj * console) :
  key ∈ ks →
  JSON_parse s = Thrown e →
  key ≠ "component" → key ≠ "data-gjs-type" →
  Obj.lookup key attrs = Some (VStr s) → s ≠ "" →
  traitsMap options !! key = Some trait → is_json trait = true →
  [VStr ("Failed to parse JSON trait " ++ key ++ ":"); VStr s]
    ∈ snd (Obj.forEach ks (passAttribute JSON_parse options attrs) st).
Proof.
  intros Hin Hthrow Hc Ht Hs Hne Htrait Hjson. unfold Obj.forEach.
  revert st; induction ks as [|k ks IH]; intros st; [by apply elem_of_nil in Hin|].
  cbn [fold_left]. apply elem_of_cons in Hin as [<- | Hin]; [|by apply IH].
  apply (forEach_invariant (λ st : obj * console,
           [VStr ("Failed to parse JSON trait " ++ key ++ ":"); VStr s] ∈ snd st) ks
           (passAttribute JSON_parse options attrs)).
  - destruct st as [acc log]. unfold passAttribute, get.
    rewrite Hs, Htrait, Hjson, Hthrow, !bool_decide_eq_true_2 by done.
    destruct s; [done|]. cbn [andb snd]. unfold warn.
    apply elem_of_app. right. by apply list_elem_of_singleton.
  - intros x st' Hw. by apply passAttribute_log_mono.
Qed.

(** X8.  The overlay runs, and warns, also when the descriptor has a custom
    mapper that makes its result unused: a textual attribute under a
    JSON-typed name that fails to decode is reported on the console before
    the mapper is called, and nothing logged earlier is lost. *)
Theorem overlay_warns_before_custom_mapper
    JSON_parse options config (attrs : obj) f key s e trait log :
  mapProps config = Some f →
  JSON_parse s = Thrown e →
  key ≠ "component" → key ≠ "data-gjs-type" →
  Obj.lookup key attrs = Some (VStr s) → s ≠ "" →
  traitsMap options !! key = Some trait → is_json trait = true →
  ∃ log1,
    finalProps JSON_parse options config attrs log = f attrs log1 ∧
    [VStr ("Failed to parse JSON trait " ++ key ++ ":"); VStr s] ∈ log1 ∧
    ∀ w, w ∈ log → w ∈ log1.
Proof.
  intros Hmap Hthrow Hc Ht Hs Hne Htrait Hjson.
  eexists. split; [by apply finalProps_mapped|]. unfold rawProps. split.
  - apply (forEach_passAttribute_warns _ _ _ _ key s e trait); try done.
    apply elem_of_keys. by eexists.
  - intros w Hw.
    apply (forEach_invariant (λ st : obj * console, w ∈ snd st)); [done|].
    intros x st Hst. by apply passAttribute_log_mono.
Qed.

Lemma overlay_warns_before_custom_mapper_witness :
  ∃ log1,
    finalProps JSON_parse_sample Sample.json_first Sample.wrapped_card
      [("data", VStr "{oops")] []
    = (Returned [("uiComponent", VObj [("x", VNum 1); ("data", VStr "{oops")])], log1) ∧
    [VStr "Failed to parse JSON trait data:"; VStr "{oops"] ∈ log1.
Proof.
  destruct (overlay_warns_before_custom_mapper JSON_parse_sample Sample.json_first
              Sample.wrapped_card [("data", VStr "{oops")] _ "data" "{oops"
              (VStr "SyntaxError") (TJson "data" "Data" None) [] eq_refl eq_refl)
    as (log1 & Hfinal & Hwarn & _);
    [discriminate | discriminate | reflexivity | discriminate | reflexivity | reflexivity | ].
  exists log1. split; [|exact Hwarn].
  rewrite Hfinal. reflexivity.
Defined.

(** ** Rendering again *)

Lemma createProviderWrapper_pure options :
  wrapComponent options = None →
  ∃ g : value → value,
    ∀ element name log, createProviderWrapper options element name log
                        = (Returned (g element), log).
Proof.
  intros Hwrap. unfold createProviderWrapper. rewrite Hwrap.
  destruct (providers options) as [[|p ps]|].
  - destruct (Provider options) as [P|]; by eexists (λ element, _).
  - by eexists (λ element, _).
  - destruct (Provider options) as [P|]; by eexists (λ element, _).
Qed.

Lemma rawProps_fst_any_log JSON_parse options config attrs log1 log2 :
  fst (rawProps JSON_parse options config attrs log1)
  = fst (rawProps JSON_parse options config attrs log2).
Proof.
  unfold rawProps.
  by rewrite !(fst_forEach _ _
                 (λ key acc, match passed_value JSON_parse options attrs key with
                             | Some v => Obj.set key v acc
                             | None => acc
                             end)) by apply passAttribute_fst.
Qed.

(** X9.  Without a custom mapper and a custom wrapper, a render of a node
    whose descriptor resolves always completes, keeps the node's element and
    attributes, and leaves a view on which rendering again changes nothing:
    the same element is handed to the same root, whatever was logged in
    between. *)
Theorem rendering_again_changes_nothing JSON_parse options view config log :
  selected_config options (toComponentAttributes (attributes view)) = Some config →
  mapProps config = None →
  wrapComponent options = None →
  ∃ view' log1,
    render JSON_parse options (HostView view) log = (Returned (HostView view'), log1) ∧
    el view' = el view ∧ attributes view' = attributes view ∧
    ∀ log', ∃ log2,
      render JSON_parse options (HostView view') log' = (Returned (HostView view'), log2).
Proof.
  intros Hsel Hmap Hwrap.
  destruct (createProviderWrapper_pure options Hwrap) as [g Hg].
  rewrite (render_resolved _ _ _ _ _ Hsel), finalProps_default, Hg by done.
  eexists _, _. split; [reflexivity|]. split; [done|]. split; [done|].
  intros log'. eexists.
  rewrite (render_resolved _ _ (view_mounting view _) config) by done.
  cbn [view_mounting attributes].
  rewrite finalProps_default, Hg by done.
  rewrite (rawProps_fst_any_log _ _ _ _ log' log).
  unfold view_mounting. cbn. reflexivity.
Qed.

Lemma rendering_again_changes_nothing_witness :
  ∃ view' log1,
    render JSON_parse_sample Sample.hero_options (HostView Sample.plain_view) []
      = (Returned (HostView view'), log1) ∧
    mounted (render JSON_parse_sample Sample.hero_options (HostView view') log1)
      = Some (VElem (VFun "Hero") [("title", VStr "Hi")]).
Proof.
  destruct (rendering_again_changes_nothing JSON_parse_sample Sample.hero_options
              Sample.plain_view (normalized (BareComponent (VFun "Hero"))) []
              eq_refl eq_refl eq_refl)
    as (view' & log1 & Hfirst & _ & _ & Hagain).
  exists view', log1. split; [exact Hfirst|].
  destruct (Hagain log1) as [log2 ->].
  injection Hfirst as <- _. reflexivity.
Defined.

(** ** The defaults merge *)

(** X10.  [mergeDefaults] holds, key by key, the attribute's value unless
    the attribute is absent, [undefined] or the empty string, in which case
    it holds what the defaults hold; a [null] attribute does override the
    default.  Merging the same attributes in again changes no entry. *)
Theorem mergeDefaults_key_by_key (defaults attrs : obj) :
  (∀ k, Obj.lookup k (mergeDefaults defaults attrs) =
          match Obj.lookup k attrs with
          | None | Some VUndefined | Some (VStr "") => Obj.lookup k defaults
          | Some v => Some v
          end) ∧
  (∀ k, Obj.lookup k (mergeDefaults (mergeDefaults defaults attrs) attrs)
        = Obj.lookup k (mergeDefaults defaults attrs)).
Proof.
  assert (∀ (d : obj) k, Obj.lookup k (mergeDefaults d attrs) =
            match Obj.lookup k attrs with
            | None | Some VUndefined | Some (VStr "") => Obj.lookup k d
            | Some v => Some v
            end) as Hkey.
  { intros d k. unfold mergeDefaults.
    rewrite (lookup_forEach_set
               (λ key, match get key attrs with
                       | VUndefined | VStr "" => None
                       | v => Some v
                       end)).
    2: { intros key acc. destruct (get key attrs) as [| | | |[|]| | | | |]; done. }
    rewrite lookup_assign. cbn [Obj.lookup Obj.empty]. unfold get.
    case_decide as Hin.
    - apply elem_of_keys in Hin as [v ->].
      destruct v as [| | | |[|]| | | | |]; by destruct (Obj.lookup k d).
    - apply not_elem_of_keys in Hin. rewrite Hin. by destruct (Obj.lookup k d). }
  split; [apply Hkey|].
  intros k. rewrite (Hkey (mergeDefaults defaults attrs)), Hkey.
  by destruct (Obj.lookup k attrs) as [[| | | |[|]| | | | |]|].
Qed.

(** ** The wrapper factories *)



(** X12.  The deprecated UI-component factory maps the attributes exactly
    as the wrapper factory does under the key [uiComponent]; its branch for
    a missing wrapper value is never taken.  Its traits are the common
    [title] and [description] traits followed by the custom ones, and it has
    no [defaultProps]. *)
Theorem ui_factory_is_wrapper_factory component customTraits (uiComponentDefaults : obj) :
  traits (createUiComponentConfig component customTraits uiComponentDefaults)
    = Some (commonTraits.title :: commonTraits.description :: customTraits) ∧
  defaultProps (createUiComponentConfig component customTraits uiComponentDefaults) = None ∧
  ∃ f, mapProps (createUiComponentConfig component customTraits uiComponentDefaults)
         = Some f ∧
       ∀ attrs log, f attrs log
                    = (Returned (createWrapperMapper "uiComponent" uiComponentDefaults attrs),
                       log).
Proof.
  split; [reflexivity|]. split; [reflexivity|].
  eexists. split; [reflexivity|]. intros attrs log. cbv zeta.
  destruct (createWrapperMapper_lookup "uiComponent" uiComponentDefaults attrs)
    as (merged & -> & _).
  reflexivity.
Qed.

Lemma registry_head_stays options name r rest :
  components options = (name, r) :: rest →
  ∃ tl, normalizedComponents options = (name, normalized r) :: tl.
Proof.
  intros Hcomps. unfold normalizedComponents. rewrite Hcomps.
  cbn [Obj.keys map fst]. unfold Obj.forEach. cbn [fold_left Obj.lookup].
  rewrite decide_True by done.
  assert (Obj.set name (normalized r) Obj.empty = [(name, normalized r)]) as Hfirst
    by reflexivity.
  assert (∀ (acc : Obj.t ComponentConfig),
            (∃ tl, acc = (name, normalized r) :: tl) →
            ∃ tl, fold_left (λ acc key,
                    match (if decide (key = name) then Some r else Obj.lookup key rest) with
                    | Some (BareComponent comp) =>
                        Obj.set key {| component := comp; traits := Some default_traits;
                                       defaultProps := None; mapProps := None |} acc
                    | Some (BareElement comp) =>
                        Obj.set key {| component := VConst comp; traits := Some default_traits;
                                       defaultProps := None; mapProps := None |} acc
                    | Some (Described comp) => Obj.set key comp acc
                    | None => acc
                    end) (map fst rest) acc = (name, normalized r) :: tl) as Hkeep.
  { generalize (map fst rest) as ks.
    induction ks as [|key ks IH]; intros acc Hacc; cbn [fold_left]; [done|].
    apply IH. destruct Hacc as [tl ->].
    destruct (decide (key = name)) as [->|Hne].
    - destruct r; cbn [Obj.set]; rewrite decide_True by done; by eexists.
    - destruct (Obj.lookup key rest) as [[]|]; cbn [Obj.set];
        rewrite ?decide_False by done; by eexists. }
  destruct r; apply Hkeep; by eexists.
Qed.

(** X13.  When the first registered descriptor comes from the
    UI-component factory, the trait list exposed to the editor holds the
    common [title] and [description] traits under these names: a custom trait
    of the same name, in that descriptor or a later one, does not replace
    them. *)
Theorem ui_base_traits_are_not_overridden
    options name component customTraits (uiComponentDefaults : obj) rest :
  components options =
    (name, Described (createUiComponentConfig component customTraits uiComponentDefaults))
    :: rest →
  find (named "title") (baseTraits options) = Some commonTraits.title ∧
  find (named "description") (baseTraits options) = Some commonTraits.description.
Proof.
  intros Hcomps.
  destruct (registry_head_stays _ _ _ _ Hcomps) as [tl Hreg].
  rewrite !find_baseTraits. unfold all_traits. rewrite Hreg. split; reflexivity.
Qed.

Lemma ui_base_traits_are_not_overridden_witness :
  filter (named "title") (baseTraits More.ui_options) = [commonTraits.title] ∧
  find (named "description") (baseTraits More.ui_options) = Some commonTraits.description.
Proof.
  split; [reflexivity|].
  apply (ui_base_traits_are_not_overridden More.ui_options "Agenda" (VFun "Agenda")
           [TText "title" "Agenda name" None; TJson "entryList" "Entries (JSON)" None]
           [("groupBy", VStr "none")] [("Hero", BareComponent (VFun "Hero"))] eq_refl).
Defined.

(** ** The JSON factory *)

Lemma forEachM_pure {X S : Type} (xs : list X) (body : X → S → M S)
    (step : X → S * console → S * console) s log :
  (∀ x s log, body x s log = (Returned (fst (step x (s, log))), snd (step x (s, log)))) →
  forEachM xs body s log =
    (Returned (fst (Obj.forEach xs step (s, log))), snd (Obj.forEach xs step (s, log))).
Proof.
  intros Hbody. unfold Obj.forEach.
  revert s log; induction xs as [|x xs IH]; intros s log; cbn [forEachM fold_left]; [done|].
  unfold mbind, M_bind. rewrite Hbody, IH.
  by destruct (step x (s, log)).
Qed.

(** The loop of the JSON factory's mapper: it returns, and what it has
    written under a key is the decoded text for a listed field, the value
    itself otherwise, and nothing for [undefined] and [null]. *)
Lemma json_factory_parsed JSON_parse (jsonFields : list string) (attrs : obj) log :
  ∃ parsed log',
    forEachM (Obj.keys attrs) (λ key (parsed : obj),
      match bool_decide (key ∈ jsonFields), get key attrs with
      | true, (VStr _) as v =>
          decoded ← parseJsonTrait JSON_parse v; mret (Obj.set key decoded parsed)
      | _, (VUndefined | VNull) => mret parsed
      | _, v => mret (Obj.set key v parsed)
      end) Obj.empty log = (Returned parsed, log') ∧
    ∀ k, Obj.lookup k parsed =
           match Obj.lookup k attrs with
           | None | Some VUndefined | Some VNull => None
           | Some (VStr s) =>
               Some (if bool_decide (k ∈ jsonFields) then decoded JSON_parse s else VStr s)
           | Some v => Some v
           end.
Proof.
  eexists _, _. split.
  - apply (forEachM_pure _ _ (λ key st,
      match bool_decide (key ∈ jsonFields), get key attrs with
      | true, VStr s =>
          match JSON_parse s with
          | Returned v => (Obj.set key v (fst st), snd st)
          | Thrown _ =>
              (Obj.set key (VStr s) (fst st),
               warn [VStr "Failed to parse JSON trait:"; VStr s] (snd st))
          end
      | _, (VUndefined | VNull) => st
      | _, v => (Obj.set key v (fst st), snd st)
      end)).
    intros key parsed log0.
    destruct (bool_decide (key ∈ jsonFields)), (get key attrs); try done.
    unfold mbind, M_bind, parseJsonTrait. by destruct (JSON_parse s).
  - intros k.
    rewrite (fst_forEach _ _
               (λ key acc,
                  match (match bool_decide (key ∈ jsonFields), get key attrs with
                         | true, VStr s => Some (decoded JSON_parse s)
                         | _, (VUndefined | VNull) => None
                         | _, v => Some v
                         end) with
                  | Some v => Obj.set key v acc
                  | None => acc
                  end)).
    2: { intros key st. unfold decoded.
         destruct (bool_decide (key ∈ jsonFields)), (get key attrs); try done.
         by destruct (JSON_parse s). }
    rewrite (lookup_forEach_set
               (λ key, match bool_decide (key ∈ jsonFields), get key attrs with
                       | true, VStr s => Some (decoded JSON_parse s)
                       | _, (VUndefined | VNull) => None
                       | _, v => Some v
                       end)) by done.
    cbn [fst Obj.lookup Obj.empty]. unfold get. case_decide as Hin.
    + apply elem_of_keys in Hin as [v ->].
      by destruct (bool_decide (k ∈ jsonFields)), v.
    + apply not_elem_of_keys in Hin. by rewrite Hin.
Qed.

Lemma lookup_without_undefined (parsed : obj) k :
  Obj.lookup k
    (Obj.forEach (Obj.keys parsed) (λ key (result : obj),
       match get key parsed with
       | VUndefined => result
       | v => Obj.set key v result
       end) Obj.empty) =
  match Obj.lookup k parsed with
  | Some VUndefined => None
  | found => found
  end.
Proof. apply lookup_wrapped_defaults. Qed.

(** X14.  The mapper of a descriptor built by the JSON factory never
    throws in its own loop.  It decodes the textual attributes whose names
    are listed as JSON fields (keeping the text, after a warning, when
    decoding throws), keeps every other attribute as it is (the empty string
    and the two reserved keys included) and drops those that are [undefined]
    or [null].  A secondary mapper, when given, is applied to that object;
    otherwise the object is returned without its [undefined] entries. *)
Theorem json_factory_mapper
    JSON_parse component traits (jsonFields : list string) (defaultProps : obj)
    secondary (attrs : obj) log :
  ∃ f parsed log',
    mapProps (createJsonComponentConfig JSON_parse component traits jsonFields
                defaultProps secondary) = Some f ∧
    (∀ k, Obj.lookup k parsed =
            match Obj.lookup k attrs with
            | None | Some VUndefined | Some VNull => None
            | Some (VStr s) =>
                Some (if bool_decide (k ∈ jsonFields) then decoded JSON_parse s else VStr s)
            | Some v => Some v
            end) ∧
    match secondary with
    | Some mapper => f attrs log = mapper parsed log'
    | None =>
        ∃ props, f attrs log = (Returned props, log') ∧
                 ∀ k, Obj.lookup k props =
                        match Obj.lookup k parsed with
                        | Some VUndefined => None
                        | found => found
                        end
    end.
Proof.
  destruct (json_factory_parsed JSON_parse jsonFields attrs log)
    as (parsed & log' & Hloop & Hlookup).
  eexists _, parsed, log'. split; [reflexivity|]. split; [exact Hlookup|].
  destruct secondary as [mapper|].
  - unfold mbind at 1. unfold M_bind at 1. by rewrite Hloop.
  - eexists. split; [|apply lookup_without_undefined].
    unfold mbind at 1. unfold M_bind at 1. by rewrite Hloop.
Qed.

(** X15.  For a descriptor built by the JSON factory (without a secondary
    mapper) the render decodes a textual attribute exactly when its name is
    listed in [jsonFields]: a name whose trait is JSON-typed but that is not
    listed stays text, and a listed name is decoded whatever its trait
    says. *)
Theorem json_factory_decodes_listed_fields_only
    JSON_parse options component traits (jsonFields : list string)
    (defaultProps attrs : obj) log k s :
  Obj.lookup k attrs = Some (VStr s) →
  (k ∈ jsonFields → decoded JSON_parse s ≠ VUndefined) →
  ∃ props log',
    finalProps JSON_parse options
      (createJsonComponentConfig JSON_parse component traits jsonFields defaultProps None)
      attrs log = (Returned props, log') ∧
    Obj.lookup k props =
      Some (if bool_decide (k ∈ jsonFields) then decoded JSON_parse s else VStr s).
Proof.
  intros Hs Hdef.
  destruct (json_factory_parsed JSON_parse jsonFields attrs
              (snd (rawProps JSON_parse options
                      (createJsonComponentConfig JSON_parse component traits jsonFields
                         defaultProps None) attrs log)))
    as (parsed & log' & Hloop & Hlookup).
  eexists _, log'. split.
  - erewrite finalProps_mapped by reflexivity.
    unfold mbind at 1. unfold M_bind at 1. rewrite Hloop. reflexivity.
  - rewrite lookup_without_undefined, Hlookup, Hs.
    case_bool_decide as Hin; [|done].
    specialize (Hdef Hin). by destruct (decoded JSON_parse s).
Qed.

Lemma json_factory_decodes_listed_fields_only_witness :
  (∃ props log',
     finalProps JSON_parse_sample More.grid_options More.grid
       [("data", VStr "[1]"); ("rows", VStr "[1]")] [] = (Returned props, log') ∧
     Obj.lookup "data" props = Some (VStr "[1]")) ∧
  (∃ props log',
     finalProps JSON_parse_sample More.grid_options More.grid
       [("data", VStr "[1]"); ("rows", VStr "[1]")] [] = (Returned props, log') ∧
     Obj.lookup "rows" props = Some (VArr [VNum 1])).
Proof.
  split.
  - apply (json_factory_decodes_listed_fields_only JSON_parse_sample More.grid_options
             (VFun "Grid") [TJson "data" "Data" None; TText "rows" "Rows" None] ["rows"] []
             [("data", VStr "[1]"); ("rows", VStr "[1]")] [] "data" "[1]" eq_refl).
    intros Hin. apply list_elem_of_singleton in Hin. discriminate Hin.
  - apply (json_factory_decodes_listed_fields_only JSON_parse_sample More.grid_options
             (VFun "Grid") [TJson "data" "Data" None; TText "rows" "Rows" None] ["rows"] []
             [("data", VStr "[1]"); ("rows", VStr "[1]")] [] "rows" "[1]" eq_refl).
    intros _. discriminate.
Defined.

(** ** Provider builders *)

Lemma lookup_with_children props children k :
  Obj.lookup k (with_children props children) =
    if decide (k = "children") then Some children else props ≫= Obj.lookup k.
Proof.
  unfold with_children. destruct props as [props|]; rewrite lookup_set.
  - case_decide; [done|]. rewrite lookup_assign. cbn. by destruct (Obj.lookup k props).
  - by case_decide.
Qed.

Lemma nested_createProviderStack pairs element :
  nested (createProviderStack pairs) element =
  fold_right (λ '(component, props) inner, VElem component (with_children props inner))
             element pairs.
Proof.
  induction pairs as [|[component props] pairs IH]; [done|].
  cbn [createProviderStack map nested fold_right].
  unfold createProviderStack in IH. by rewrite IH.
Qed.

(** X16.  A provider stack built by [createProviderStack] and given to the
    plugin wraps the element in the pairs' components from the first,
    outermost, to the last, each with its own props and the next level as
    its [children]; an empty stack adds no wrapper of its own and leaves the
    choice to the single [Provider], if any. *)
Theorem provider_stack_nests_in_order options pairs element name log :
  wrapComponent options = None →
  providers options = Some (createProviderStack pairs) →
  createProviderWrapper options element name log =
    match pairs with
    | _ :: _ =>
        (Returned (fold_right (λ '(component, props) inner,
                                 VElem component (with_children props inner))
                              element pairs), log)
    | [] =>
        match Provider options with
        | Some P => (Returned (VElem P (with_children (providerProps options) element)), log)
        | None => (Returned element, log)
        end
    end.
Proof.
  intros Hwrap Hps. unfold createProviderWrapper. rewrite Hwrap, Hps.
  destruct pairs as [|[component props] pairs].
  - cbn [createProviderStack map]. by destruct (Provider options).
  - rewrite <- nested_createProviderStack.
    cbn [createProviderStack map]. unfold mret, M_ret.
    by rewrite reduceRight_nested.
Qed.

(** X17.  The single-provider wrapper creates one element of the provider:
    its [children] is the wrapped element, also when [providerProps] holds a
    [children] entry of its own, and every other property is the one
    [providerProps] holds. *)
Theorem single_provider_keeps_its_props options P element name log :
  wrapComponent options = None →
  providers options = None ∨ providers options = Some [] →
  Provider options = Some P →
  ∃ props,
    createProviderWrapper options element name log = (Returned (VElem P props), log) ∧
    ∀ k, Obj.lookup k props =
           if decide (k = "children") then Some element
           else providerProps options ≫= Obj.lookup k.
Proof.
  intros Hwrap Hps HP. unfold createProviderWrapper. rewrite Hwrap, HP.
  eexists. split.
  - destruct Hps as [-> | ->]; reflexivity.
  - apply lookup_with_children.
Qed.

(** X18.  [createReduxProvider] fails explicitly or returns the provider.
    When the module cannot be required, whatever was thrown is replaced by
    the descriptive error; when the module object has no truthy [Provider]
    the second descriptive error is thrown; otherwise the result is the
    module's [Provider] with the props [{store}], which the plugin's single
    provider strategy turns into [Provider(store, children = element)].  An
    error of building the loader itself is passed on as it is. *)
Theorem createReduxProvider_outcomes :
  (∀ e store, createReduxProvider (Thrown e) store = Thrown e) ∧
  (∀ requireFunc e store,
     requireFunc "react-redux" = Thrown e →
     createReduxProvider (Returned requireFunc) store =
       Thrown (Error "react-redux is not installed. Install it to use createReduxProvider: npm install react-redux")) ∧
  (∀ requireFunc module store,
     requireFunc "react-redux" = Returned (VObj module) →
     truthy (get "Provider" module) = false →
     createReduxProvider (Returned requireFunc) store =
       Thrown (Error "react-redux Provider not found")) ∧
  (∀ requireFunc module store options element name log,
     requireFunc "react-redux" = Returned (VObj module) →
     truthy (get "Provider" module) = true →
     ∃ reduxProvider,
       createReduxProvider (Returned requireFunc) store = Returned reduxProvider ∧
       provider_component reduxProvider = get "Provider" module ∧
       provider_props reduxProvider = Some [("store", store)] ∧
       (wrapComponent options = None → providers options = None →
        Provider options = Some (provider_component reduxProvider) →
        providerProps options = provider_props reduxProvider →
        createProviderWrapper options element name log =
          (Returned (VElem (get "Provider" module)
                       [("store", store); ("children", element)]), log))).
Proof.
  split_and!.
  - done.
  - intros requireFunc e store Hreq.
    unfold createReduxProvider, getReactRedux. by rewrite Hreq.
  - intros requireFunc module store Hreq Hfalsy.
    unfold createReduxProvider, getReactRedux. rewrite Hreq. cbn [member].
    by rewrite Hfalsy.
  - intros requireFunc module store options element name log Hreq Htruthy.
    eexists. split.
    { unfold createReduxProvider, getReactRedux. rewrite Hreq. cbn [member].
      by rewrite Htruthy. }
    split; [done|]. split; [done|].
    intros Hwrap Hps HP Hprops. unfold createProviderWrapper.
    rewrite Hwrap, Hps, HP, Hprops. reflexivity.
Qed.

Lemma provider_stack_nests_in_order_witness :
  createProviderWrapper More.stack_options (VElem (VFun "Hero") []) (VStr "Hero") []
  = (Returned
       (VElem (VFun "ReduxProvider")
          [ ("store", VStr "the store");
            ("children",
             VElem (VFun "ThemeProvider") [("children", VElem (VFun "Hero") [])]) ]), []).
Proof.
  apply (provider_stack_nests_in_order More.stack_options More.stack
           (VElem (VFun "Hero") []) (VStr "Hero") [] eq_refl eq_refl).
Defined.

Lemma single_provider_keeps_its_props_witness :
  ∃ props,
    createProviderWrapper More.redux_options (VElem (VFun "Hero") []) (VStr "Hero") []
      = (Returned (VElem (VFun "ReduxProvider") props), []) ∧
    Obj.lookup "store" props = Some (VStr "the store").
Proof.
  destruct (single_provider_keeps_its_props More.redux_options (VFun "ReduxProvider")
              (VElem (VFun "Hero") []) (VStr "Hero") [] eq_refl (or_introl eq_refl) eq_refl)
    as (props & Hwrap & Hlookup).
  exists props. split; [exact Hwrap|]. rewrite Hlookup. reflexivity.
Defined.

Lemma createReduxProvider_outcomes_witness :
  createReduxProvider (Returned More.require_missing) (VStr "the store")
    = Thrown (Error "react-redux is not installed. Install it to use createReduxProvider: npm install react-redux") ∧
  createProviderWrapper More.redux_options (VElem (VFun "Hero") []) (VStr "Hero") []
    = (Returned (VElem (VFun "ReduxProvider")
                   [("store", VStr "the store"); ("children", VElem (VFun "Hero") [])]), []).
Proof.
  destruct createReduxProvider_outcomes as (_ & Hmissing & _ & Hfound).
  split.
  - apply (Hmissing More.require_missing (Error "Cannot find module")). reflexivity.
  - destruct (Hfound More.require_found [("Provider", VFun "ReduxProvider")]
                (VStr "the store") More.redux_options (VElem (VFun "Hero") [])
                (VStr "Hero") [] eq_refl eq_refl)
      as (reduxProvider & Hredux & Hcomp & Hprops & Hplug).
    apply Hplug; try reflexivity.
    + by rewrite Hcomp.
    + by rewrite Hprops.
Defined.

(** ** Removal *)

(** X19.  After a render that mounted an element, [removed] unmounts the
    root that holds that element, a root on the node's own element unless the
    view already had one, and leaves the view with its attributes and no
    root; a second [removed] unmounts nothing. *)
Theorem removed_unmounts_what_render_mounted
    JSON_parse options view config props log log1 wrapped log2 :
  selected_config options (toComponentAttributes (attributes view)) = Some config →
  finalProps JSON_parse options config (toComponentAttributes (attributes view)) log
    = (Returned props, log1) →
  createProviderWrapper options (createElement (component config) props)
    (componentName options (toComponentAttributes (attributes view))) log1
    = (Returned wrapped, log2) →
  ∃ this' root,
    render JSON_parse options (HostView view) log = (Returned this', log2) ∧
    removed this' =
      (HostView {| el := el view; attributes := attributes view; _root := None |},
       Some root) ∧
    rendered root = Some wrapped ∧
    container root = match _root view with
                     | Some old => container old
                     | None => el view
                     end ∧
    removed (fst (removed this')) = (fst (removed this'), None).
Proof.
  intros Hsel Hprops Hwrap.
  rewrite (render_resolved _ _ _ _ _ Hsel), Hprops, Hwrap.
  eexists _, _. split; [reflexivity|]. cbn. split; [reflexivity|].
  split; [reflexivity|]. split; [|reflexivity].
  by destruct (_root view).
Qed.

Lemma removed_unmounts_what_render_mounted_witness :
  ∃ this' root,
    render JSON_parse_sample Sample.hero_options (HostView Sample.plain_view) []
      = (Returned this', []) ∧
    removed this' = (HostView Sample.plain_view, Some root) ∧
    rendered root = Some (VElem (VFun "Hero") [("title", VStr "Hi")]).
Proof.
  destruct (removed_unmounts_what_render_mounted JSON_parse_sample Sample.hero_options
              Sample.plain_view (normalized (BareComponent (VFun "Hero")))
              [("title", VStr "Hi")] [] [] (VElem (VFun "Hero") [("title", VStr "Hi")]) []
              eq_refl eq_refl eq_refl)
    as (this' & root & Hrender & Hremoved & Hrendered & _).
  exists this', root. split_and!; done.
Defined.

(** ** The palette blocks *)

Lemma prefix_append (a b : string) : String.prefix a (a ++ b) = true.
Proof.
  induction a as [|c a IH].
  - change (("" ++ b)%string) with b. by destruct b.
  - change ((String c a ++ b)%string) with (String c (a ++ b)). cbn [String.prefix].
    by destruct (Ascii.ascii_dec c c).
Qed.

Lemma prefix_append_assoc (k c rest : string) :
  String.prefix (k ++ c) (k ++ c ++ rest) = true.
Proof.
  induction k as [|x k IH].
  - change (("" ++ c ++ rest)%string) with ((c ++ rest)%string).
    change (("" ++ c)%string) with c.
    apply prefix_append.
  - change ((String x k ++ c ++ rest)%string) with (String x (k ++ c ++ rest)).
    change ((String x k ++ c)%string) with (String x (k ++ c)). cbn [String.prefix].
    by destruct (Ascii.ascii_dec x x).
Qed.

Lemma attribute_text_prefix String_ key v :
  String.prefix (key ++ "=") (attribute_text String_ key v) = true.
Proof. unfold attribute_text. apply prefix_append_assoc. Qed.

Lemma existsb_true_elem {X : Type} (p : X → bool) (l : list X) x :
  x ∈ l → p x = true → existsb p l = true.
Proof.
  intros Hin Hp. apply existsb_exists. exists x. split; [|done].
  by apply list_elem_of_In.
Qed.

(** The loop over [defaultProps] appends one text per entry that has a
    value. *)
Lemma defaultProps_loop String_ (defaultProps : obj) acc :
  Obj.forEach defaultProps (λ '(key, v) defaultAttrs,
    match v with
    | VUndefined | VNull => defaultAttrs
    | _ => defaultAttrs ++ [attribute_text String_ key v]
    end) acc
  = acc ++ omap (λ '(key, v), match v with
                              | VUndefined | VNull => None
                              | _ => Some (attribute_text String_ key v)
                              end) defaultProps.
Proof.
  unfold Obj.forEach.
  revert acc; induction defaultProps as [|[key v] dp IH]; intros acc; cbn [fold_left omap].
  - by rewrite app_nil_r.
  - rewrite IH. destruct v; cbn; by rewrite <- ?app_assoc.
Qed.

(** The loop over the traits appends the default of a trait only when no
    text so far starts with the trait's name and [=], and afterwards every
    trait with a default has such a text. *)
Lemma traits_loop String_ (traits : list TraitDefinition) acc :
  ∃ extra,
    Obj.forEach traits (λ trait defaultAttrs,
      match trait_defaultValue trait with
      | Some defaultValue =>
          let exists_ := existsb (String.prefix (trait_name trait ++ "=")) defaultAttrs in
          if exists_ then defaultAttrs
          else defaultAttrs ++ [attribute_text String_ (trait_name trait) defaultValue]
      | None => defaultAttrs
      end) acc = acc ++ extra ∧
    (∀ a, a ∈ extra →
       ∃ t dv, t ∈ traits ∧ trait_defaultValue t = Some dv ∧
               a = attribute_text String_ (trait_name t) dv ∧
               existsb (String.prefix (trait_name t ++ "=")) acc = false) ∧
    (∀ t dv, t ∈ traits → trait_defaultValue t = Some dv →
       existsb (String.prefix (trait_name t ++ "=")) (acc ++ extra) = true).
Proof.
  unfold Obj.forEach.
  revert acc; induction traits as [|t ts IH]; intros acc; cbn [fold_left].
  - exists []. rewrite app_nil_r. split; [done|].
    split; [intros a Ha | intros t dv Ht]; by apply elem_of_nil in Ha || apply elem_of_nil in Ht.
  - destruct (trait_defaultValue t) as [dv|] eqn:Hdv.
    2: { destruct (IH acc) as (extra & Heq & Hfrom & Hcover).
         exists extra. split; [done|]. split.
         - intros a Ha. destruct (Hfrom a Ha) as (u & du & Hu & ?).
           exists u, du. split; [by right | done].
         - intros u du Hu Hdu. apply elem_of_cons in Hu as [-> | Hu]; [congruence|].
           by apply (Hcover u du). }
    cbv zeta.
    destruct (existsb (String.prefix (trait_name t ++ "=")) acc) eqn:Hex.
    + destruct (IH acc) as (extra & Heq & Hfrom & Hcover).
      exists extra. split; [done|]. split.
      * intros a Ha. destruct (Hfrom a Ha) as (u & du & Hu & ?).
        exists u, du. split; [by right | done].
      * intros u du Hu Hdu. apply elem_of_cons in Hu as [-> | Hu].
        -- rewrite existsb_app, Hex. done.
        -- by apply (Hcover u du).
    + destruct (IH (acc ++ [attribute_text String_ (trait_name t) dv]))
        as (extra & Heq & Hfrom & Hcover).
      exists (attribute_text String_ (trait_name t) dv :: extra).
      split; [by rewrite Heq, <- app_assoc|]. split.
      * intros a Ha. apply elem_of_cons in Ha as [-> | Ha].
        -- exists t, dv. split; [by left | done].
        -- destruct (Hfrom a Ha) as (u & du & Hu & Hdu & Ha' & Hno).
           exists u, du. split; [by right|]. split; [done|]. split; [done|].
           rewrite existsb_app in Hno. by apply orb_false_iff in Hno as [? _].
      * intros u du Hu Hdu.
        replace (acc ++ attribute_text String_ (trait_name t) dv :: extra)
          with ((acc ++ [attribute_text String_ (trait_name t) dv]) ++ extra)
          by (by rewrite <- app_assoc).
        apply elem_of_cons in Hu as [-> | Hu]; [|by apply (Hcover u du)].
        rewrite !existsb_app. cbn [existsb].
        rewrite attribute_text_prefix. by rewrite orb_true_r.
Qed.

(** X20.  The default attributes of a component's block are the selector
    [component="name"], then one attribute for each entry of [defaultProps]
    that is neither [undefined] nor [null], then defaults of traits.  A
    trait's default value is written only when nothing before it starts with
    the trait's name and [=]: never for a trait named [component], never for
    a name [defaultProps] gives a value to; and every trait that has a
    default value finds an attribute of its name in the block. *)
Theorem block_attributes_precedence String_ name config :
  ∃ fromTraits,
    defaultAttrs String_ name config =
      ("component=" ++ quote ++ name ++ quote)%string
      :: texts_of_defaultProps String_ config ++ fromTraits ∧
    (∀ a, a ∈ fromTraits →
       ∃ t dv, t ∈ default [] (traits config) ∧ trait_defaultValue t = Some dv ∧
               a = attribute_text String_ (trait_name t) dv ∧
               trait_name t ≠ "component" ∧
               ∀ v, (trait_name t, v) ∈ default [] (defaultProps config) →
                    v = VUndefined ∨ v = VNull) ∧
    (∀ t dv, t ∈ default [] (traits config) → trait_defaultValue t = Some dv →
       ∃ a, a ∈ defaultAttrs String_ name config ∧
            String.prefix (trait_name t ++ "=") a = true).
Proof.
  assert (∃ base,
            base = ("component=" ++ quote ++ name ++ quote)%string
                   :: texts_of_defaultProps String_ config ∧
            defaultAttrs String_ name config =
              match traits config with
              | Some traits =>
                  Obj.forEach traits (λ trait defaultAttrs,
                    match trait_defaultValue trait with
                    | Some defaultValue =>
                        let exists_ :=
                          existsb (String.prefix (trait_name trait ++ "=")) defaultAttrs in
                        if exists_ then defaultAttrs
                        else defaultAttrs
                             ++ [attribute_text String_ (trait_name trait) defaultValue]
                    | None => defaultAttrs
                    end) base
              | None => base
              end) as (base & Hbase & Hattrs).
  { eexists. split; [reflexivity|]. unfold defaultAttrs, texts_of_defaultProps.
    destruct (defaultProps config) as [dp|]; [|done].
    cbv zeta. by rewrite defaultProps_loop. }
  assert (∀ t, existsb (String.prefix (trait_name t ++ "=")) base = false →
               trait_name t ≠ "component" ∧
               ∀ v, (trait_name t, v) ∈ default [] (defaultProps config) →
                    v = VUndefined ∨ v = VNull) as Hshadow.
  { intros t Hno. subst base. cbn [existsb] in Hno.
    apply orb_false_iff in Hno as [Hsel Hprops]. split.
    - intros Hname. rewrite Hname in Hsel.
      by rewrite (prefix_append "component=" _) in Hsel.
    - intros v Hv.
      destruct (match v with VUndefined | VNull => true | _ => false end) eqn:Hnullish.
      { destruct v; try done; [by left | by right]. }
      exfalso.
      assert (attribute_text String_ (trait_name t) v ∈ texts_of_defaultProps String_ config)
        as Hin.
      { unfold texts_of_defaultProps. apply list_elem_of_omap.
        exists (trait_name t, v). split; [done|]. by destruct v. }
      rewrite (existsb_true_elem _ _ _ Hin (attribute_text_prefix _ _ _)) in Hprops.
      done. }
  rewrite Hattrs. destruct (traits config) as [ts|].
  - destruct (traits_loop String_ ts base) as (extra & Heq & Hfrom & Hcover).
    exists extra. rewrite Heq, Hbase. cbn [default]. split; [done|]. split.
    + intros a Ha. destruct (Hfrom a Ha) as (t & dv & Ht & Hdv & Ha' & Hno).
      exists t, dv. rewrite Hbase in Hno. split_and!; try done; by apply Hshadow; rewrite Hbase.
    + intros t dv Ht Hdv. specialize (Hcover t dv Ht Hdv).
      apply existsb_exists in Hcover as (a & Ha & Hp).
      exists a. split; [|done]. rewrite <- Hbase. by apply list_elem_of_In.
  - exists []. rewrite Hbase, app_nil_r. cbn [default]. split; [done|].
    split; [intros a Ha | intros t dv Ht]; by apply elem_of_nil in Ha || apply elem_of_nil in Ht.
Qed.

Lemma block_attributes_precedence_witness :
  defaultAttrs More.String_sample "Button" More.button
    = [ ("component=" ++ quote ++ "Button" ++ quote)%string;
        attribute_text More.String_sample "label" (VStr "Get Started");
        attribute_text More.String_sample "href" (VStr "#start");
        attribute_text More.String_sample "size" (VNum 3) ] ∧
  ∃ a, a ∈ defaultAttrs More.String_sample "Button" More.button ∧
       String.prefix "label=" a = true.
Proof.
  split; [reflexivity|].
  destruct (block_attributes_precedence More.String_sample "Button" More.button)
    as (fromTraits & _ & _ & Hcover).
  apply (Hcover (TText "label" "Button Label" (Some "Click me")) (VStr "Click me"));
    [by left | reflexivity].
Defined.

Lemma NoDup_keys_normalizedComponents options :
  NoDup (Obj.keys (normalizedComponents options)).
Proof.
  unfold normalizedComponents.
  apply (forEach_invariant (λ o : Obj.t ComponentConfig, NoDup (Obj.keys o))).
  - apply NoDup_nil_2.
  - intros key acc Hacc.
    destruct (Obj.lookup key (components options)) as [[]|];
      try done; by apply NoDup_keys_set.
Qed.

(** A loop over the keys of [o] that appends what it makes of each entry
    makes the list of what it makes of the entries, in order. *)
Lemma forEach_collect {A B : Type} (h : string → A → B) (o : Obj.t A) :
  NoDup (Obj.keys o) →
  Obj.forEach (Obj.keys o) (λ key acc,
    match Obj.lookup key o with
    | Some v => acc ++ [h key v]
    | None => acc
    end) [] = map (λ kv, h kv.1 kv.2) o.
Proof.
  intros Hnd.
  enough (∀ l2 l1, o = l1 ++ l2 →
            Obj.forEach (Obj.keys l2) (λ key acc,
              match Obj.lookup key o with
              | Some v => acc ++ [h key v]
              | None => acc
              end) (map (λ kv, h kv.1 kv.2) l1) =
            map (λ kv, h kv.1 kv.2) o) as Hgen by exact (Hgen o [] eq_refl).
  unfold Obj.forEach.
  induction l2 as [|[k v] l2 IH]; intros l1 Ho; cbn [Obj.keys map fst fold_left].
  - by rewrite Ho, app_nil_r.
  - assert (Obj.lookup k o = Some v) as ->.
    { subst o. unfold Obj.keys in Hnd. rewrite map_app in Hnd.
      apply NoDup_app in Hnd as (_ & Hdisj & _).
      rewrite lookup_app.
      assert (Obj.lookup k l1 = None) as ->.
      { apply not_elem_of_keys. intros Hin. apply (Hdisj k Hin). simpl. by left. }
      simpl. by rewrite decide_True. }
    specialize (IH (l1 ++ [(k, v)])). rewrite map_app in IH. apply IH.
    subst o. by rewrite <- app_assoc.
Qed.

(** X21.  The plugin adds one block for each registered name, in
    registration order: its id is [react-] followed by the lower-cased name,
    its label the name followed by [ (React)], its category [React], and its
    content the [react-comp] element with the default attributes of that
    name's descriptor. *)
Theorem one_block_per_component String_ toLowerCase options :
  blocks String_ toLowerCase options =
    map (λ '(name, config),
           (("react-" ++ toLowerCase name)%string,
            {| block_label := name ++ " (React)";
               block_category := "React";
               block_content :=
                 newline ++ "          <div data-gjs-type=" ++ quote ++ "react-comp" ++ quote
                 ++ " " ++ String.concat " " (defaultAttrs String_ name config) ++ ">"
                 ++ newline ++ "          </div>" ++ newline ++ "        " |}))
        (normalizedComponents options) ∧
  map fst (blocks String_ toLowerCase options) =
    map (λ name, ("react-" ++ toLowerCase name)%string)
        (Obj.keys (normalizedComponents options)).
Proof.
  assert (blocks String_ toLowerCase options =
    map (λ '(name, config),
           (("react-" ++ toLowerCase name)%string,
            {| block_label := name ++ " (React)";
               block_category := "React";
               block_content :=
                 newline ++ "          <div data-gjs-type=" ++ quote ++ "react-comp" ++ quote
                 ++ " " ++ String.concat " " (defaultAttrs String_ name config) ++ ">"
                 ++ newline ++ "          </div>" ++ newline ++ "        " |}))
        (normalizedComponents options)) as Hblocks.
  { unfold blocks.
    rewrite (forEach_collect (λ name config, _)) by apply NoDup_keys_normalizedComponents.
    apply map_ext. by intros [name config]. }
  split; [exact Hblocks|].
  rewrite Hblocks. unfold Obj.keys. rewrite !map_map.
  apply map_ext. by intros [name config].
Qed.

(** ** Errors of the caller's functions *)

(** X22.  The render hook has no handler around the caller's functions:
    what a custom [mapProps] throws, and what a custom [wrapComponent]
    throws, is thrown by [render], after the overlay has run and before
    anything is mounted. *)
Theorem caller_errors_escape_render JSON_parse options view config log :
  selected_config options (toComponentAttributes (attributes view)) = Some config →
  let attrs := toComponentAttributes (attributes view) in
  (∀ f e log',
     mapProps config = Some f →
     f attrs (snd (rawProps JSON_parse options config attrs log)) = (Thrown e, log') →
     render JSON_parse options (HostView view) log = (Thrown e, log')) ∧
  (∀ wrap props log1 e log',
     wrapComponent options = Some wrap →
     finalProps JSON_parse options config attrs log = (Returned props, log1) →
     wrap (createElement (component config) props) (componentName options attrs) log1
       = (Thrown e, log') →
     render JSON_parse options (HostView view) log = (Thrown e, log')).
Proof.
  intros Hsel attrs. subst attrs. split.
  - intros f e log' Hmap Hthrow.
    by rewrite (render_resolved _ _ _ _ _ Hsel), (finalProps_mapped _ _ _ _ _ _ Hmap), Hthrow.
  - intros wrap props log1 e log' Hwrap Hprops Hthrow.
    rewrite (render_resolved _ _ _ _ _ Hsel), Hprops.
    unfold createProviderWrapper. by rewrite Hwrap, Hthrow.
Qed.

Lemma caller_errors_escape_render_witness :
  render JSON_parse_sample More.throwing_options (HostView Sample.card_view) []
  = (Thrown (Error "no title"), []).
Proof.
  destruct (caller_errors_escape_render JSON_parse_sample More.throwing_options
              Sample.card_view More.throwing [] eq_refl) as [Hmap _].
  apply (Hmap (λ _ log, (Thrown (Error "no title"), log))); reflexivity.
Defined.
